(** * The metadata pipeline of etl/socrata_metadata_pub.py

    A shallow embedding of [extract], [convert_tz], [transform], [fetch],
    [get_row_counts] and [main], and the properties the design document
    states about them.

    Conventions.
    - A JSON leaf is a [scalar]: null, a boolean, an integer or a string
      (ASCII text; floating point numbers are outside the model).
    - A Python [dict] with string keys and scalar values is a
      [gmap string scalar]; [d !! k = None] is the [KeyError] of [d[k]].
    - A computation that can raise returns [option]; [None] is "an
      exception propagated out of the function".
    - A function that mutates its argument returns the mutated argument
      next to its result. *)

From Stdlib Require Import ZArith String Ascii List Lia Bool.
From stdpp Require Import base option list gmap strings fin_maps pretty.

Open Scope string_scope.
Open Scope list_scope.
Open Scope Z_scope.

(** ** Python values *)

Inductive scalar : Type :=
| SNone
| SBool (b : bool)
| SInt (n : Z)
| SStr (s : string).

#[global] Instance scalar_eq_dec : EqDecision scalar.
Proof. solve_decision. Defined.

Abbreviation dict := (gmap string scalar).

Module Py.

(** [bool(v)]: the truth value used by [if v] and [not v]. *)
Definition truthy (v : scalar) : bool :=
  match v with
  | SNone => false
  | SBool b => b
  | SInt n => negb (n =? 0)
  | SStr s => negb (String.eqb s "")
  end.

(** [a == b]. Booleans are integers in Python ([True == 1]). *)
Definition eq (a b : scalar) : bool :=
  match a, b with
  | SNone, SNone => true
  | SBool x, SBool y => Bool.eqb x y
  | SBool x, SInt n | SInt n, SBool x => (if x then 1 else 0) =? n
  | SInt n, SInt m => n =? m
  | SStr s, SStr t => String.eqb s t
  | _, _ => false
  end.

(** [x in l] for a list [l]. *)
Definition in_list (x : scalar) (l : list scalar) : bool :=
  existsb (eq x) l.

Fixpoint has_char (c : ascii) (s : string) : bool :=
  match s with
  | EmptyString => false
  | String c' s' => Ascii.eqb c c' || has_char c s'
  end.

(** [c in v] for a one-character string [c]: a substring test when
    [v] is a string, a [TypeError] for the other scalars. *)
Definition contains_char (c : ascii) (v : scalar) : option bool :=
  match v with
  | SStr s => Some (has_char c s)
  | _ => None
  end.

(** [str(v)]. *)
Definition str (v : scalar) : string :=
  match v with
  | SNone => "None"
  | SBool true => "True"
  | SBool false => "False"
  | SInt n => pretty n
  | SStr s => s
  end.

(** [sep.join(l)]. *)
Fixpoint join (sep : string) (l : list string) : string :=
  match l with
  | [] => ""
  | [x] => x
  | x :: rest => x +:+ sep +:+ join sep rest
  end.

(** [prefix + v] for a string [prefix]: [TypeError] unless [v] is a
    string. *)
Definition str_add (prefix : string) (v : scalar) : option string :=
  match v with
  | SStr s => Some (prefix +:+ s)
  | _ => None
  end.

End Py.

(** ** Module constants *)

Definition ATD_USER_ID : string := "8t3r-wq64".
Definition BASE_URL : string := "https://data.austintexas.gov/d/".
Definition EDP_URL : string := "https://datahub.austintexas.gov/d/".
Definition CATEGORY : string := "Transportation and Mobility".

Definition OUT_FIELDS : list string :=
  [ "id"; "name"; "description"; "attribution"; "type"; "updatedAt";
    "createdAt"; "metadata_updated_at"; "data_updated_at";
    "download_count"; "publication_date"; "page_views_last_week";
    "page_views_last_month"; "page_views_total" ].

(** The [fields] dictionary of [transform], in insertion order. *)
Definition fields : list (string * string) :=
  [ ("Publishing-Information_Automation-Method", "automation_method");
    ("Publishing-Information_Automation-Method-(if-Other)", "automation_method_other");
    ("Publishing-Information_Update-Frequency", "update_frequency");
    ("Publishing-Information_Spatial-Information", "spatial_information");
    ("Ownership_Department-name", "department_name");
    ("Ownership_Program-Name", "program_name");
    ("Strategic-Area_Strategic-Direction-Outcome", "strategic_area") ].

(** ** Catalog assets

    One element of [results] in a catalog response. The three
    sub-objects the code always indexes ([resource], [classification],
    [owner]) are record fields; what the code tests for presence, adds
    or overwrites stays optional or a dictionary. *)

(** An element of [domain_metadata] or [domain_private_metadata]. *)
Record kv : Type := KV { kv_key : string; kv_value : scalar }.

Record classification : Type := Classification {
  domain_category : option scalar;
  domain_tags : option (list scalar);
  domain_metadata : list kv;
  domain_private_metadata : option (list kv)
}.

Record owner : Type := Owner {
  owner_id : scalar;
  display_name : scalar
}.

Record asset : Type := Asset {
  (** the scalar entries of [row["resource"]] *)
  resource : dict;
  (** [row["resource"]["page_views"]] *)
  page_views : dict;
  asset_classification : classification;
  asset_owner : owner;
  (** [row["is_public"]]; absent in a catalog response *)
  is_public : option bool
}.

Definition set_is_public (b : bool) (a : asset) : asset :=
  Asset (resource a) (page_views a) (asset_classification a) (asset_owner a) (Some b).

Definition set_domain_category (v : scalar) (a : asset) : asset :=
  let c := asset_classification a in
  Asset (resource a) (page_views a)
        (Classification (Some v) (domain_tags c) (domain_metadata c)
                        (domain_private_metadata c))
        (asset_owner a) (is_public a).

Definition set_resource (r : dict) (a : asset) : asset :=
  Asset r (page_views a) (asset_classification a) (asset_owner a) (is_public a).

(** ** extract

    [extract] takes the two decoded catalog responses ([odp_data["results"]]
    and [edp_data["results"]]); the two HTTP requests are the caller's. *)

(** [[a["resource"]["id"] for a in odp_data["results"]]] *)
Definition odp_ids_of (odp_results : list asset) : option (list scalar) :=
  mapM (fun a => resource a !! "id") odp_results.

(** [if "domain_category" not in c: c["domain_category"] = ""] *)
Definition default_category (a : asset) : asset :=
  match domain_category (asset_classification a) with
  | None => set_domain_category (SStr "") a
  | Some _ => a
  end.

(** One iteration of the loop over [edp_data["results"]]: the asset as
    the iteration leaves it, and whether it was appended to [data]. *)
Definition extract_step (odp_ids : list scalar) (r : asset) : option (asset * bool) :=
  id ← resource r !! "id";
  let r := set_is_public (Py.in_list id odp_ids) r in
  let r := default_category r in
  cat ← domain_category (asset_classification r);
  if Py.eq (owner_id (asset_owner r)) (SStr ATD_USER_ID)
     || Py.eq cat (SStr CATEGORY)
  then
    id ← resource r !! "id";
    has ← Py.contains_char ":" id;
    Some (r, negb has)
  else Some (r, false).

(** The loop: the assets of the full view after the loop, and [data]. *)
Fixpoint extract_loop (odp_ids : list scalar) (edp_results : list asset)
  : option (list asset * list asset) :=
  match edp_results with
  | [] => Some ([], [])
  | r :: rest =>
      '(r', keep) ← extract_step odp_ids r;
      '(rest', data) ← extract_loop odp_ids rest;
      Some (r' :: rest', if (keep : bool) then r' :: data else data)
  end.

Definition extract (odp_results edp_results : list asset) : option (list asset) :=
  odp_ids ← odp_ids_of odp_results;
  snd <$> extract_loop odp_ids edp_results.

(** ** Dates and times

    [datetime.datetime] of the Python runtime, as far as [convert_tz]
    uses it: [strptime] with the format ["%Y-%m-%dT%H:%M:%S.%fZ"], the
    addition of a UTC offset, and [strftime]. The calendar arithmetic
    follows the runtime's [_ymd2ord] and [_ord2ymd]. *)

Module Datetime.

Record datetime : Type := DT {
  year : Z; month : Z; day : Z;
  hour : Z; minute : Z; second : Z; microsecond : Z
}.

Definition MAXORDINAL : Z := 3652059.

Definition is_leap (y : Z) : bool :=
  (y mod 4 =? 0) && (negb (y mod 100 =? 0) || (y mod 400 =? 0)).

Definition days_before_year (y : Z) : Z :=
  let y := y - 1 in y * 365 + y / 4 - y / 100 + y / 400.

Definition DAYS_IN_MONTH (m : Z) : Z :=
  match m with
  | 1 => 31 | 2 => 28 | 3 => 31 | 4 => 30 | 5 => 31 | 6 => 30
  | 7 => 31 | 8 => 31 | 9 => 30 | 10 => 31 | 11 => 30 | 12 => 31
  | _ => -1
  end.

Definition DAYS_BEFORE_MONTH (m : Z) : Z :=
  match m with
  | 1 => 0 | 2 => 31 | 3 => 59 | 4 => 90 | 5 => 120 | 6 => 151
  | 7 => 181 | 8 => 212 | 9 => 243 | 10 => 273 | 11 => 304 | 12 => 334
  | _ => -1
  end.

Definition days_in_month (y m : Z) : Z :=
  if (m =? 2) && is_leap y then 29 else DAYS_IN_MONTH m.

Definition days_before_month (y m : Z) : Z :=
  DAYS_BEFORE_MONTH m + (if (2 <? m) && is_leap y then 1 else 0).

Definition ymd2ord (y m d : Z) : Z :=
  days_before_year y + days_before_month y m + d.

Definition DI400Y : Z := 146097.
Definition DI100Y : Z := 36524.
Definition DI4Y : Z := 1461.

Definition ord2ymd (n : Z) : Z * Z * Z :=
  let n := n - 1 in
  let n400 := n / DI400Y in let n := n mod DI400Y in
  let y := n400 * 400 + 1 in
  let n100 := n / DI100Y in let n := n mod DI100Y in
  let n4 := n / DI4Y in let n := n mod DI4Y in
  let n1 := n / 365 in let n := n mod 365 in
  let y := y + n100 * 100 + n4 * 4 + n1 in
  if (n1 =? 4) || (n100 =? 4) then (y - 1, 12, 31)
  else
    let leapyear := (n1 =? 3) && (negb (n4 =? 24) || (n100 =? 3)) in
    let m := Z.shiftr (n + 50) 5 in
    let preceding :=
      DAYS_BEFORE_MONTH m + (if (2 <? m) && leapyear then 1 else 0) in
    if n <? preceding then
      let m := m - 1 in
      let preceding :=
        preceding - (DAYS_IN_MONTH m + (if (m =? 2) && leapyear then 1 else 0)) in
      (y, m, n - preceding + 1)
    else (y, m, n - preceding + 1).

Definition toordinal (dt : datetime) : Z :=
  ymd2ord (year dt) (month dt) (day dt).

(** The constructor's range checks ([ValueError] when one fails). *)
Definition make (y m d hh mm ss us : Z) : option datetime :=
  if (1 <=? y) && (y <=? 9999) && (1 <=? m) && (m <=? 12)
     && (1 <=? d) && (d <=? days_in_month y m)
     && (0 <=? hh) && (hh <=? 23) && (0 <=? mm) && (mm <=? 59)
     && (0 <=? ss) && (ss <=? 59) && (0 <=? us) && (us <=? 999999)
  then Some (DT y m d hh mm ss us) else None.

(** [dt + timedelta(seconds=off)]; [OverflowError] outside the
    supported range of dates. *)
Definition add_seconds (dt : datetime) (off : Z) : option datetime :=
  let total := hour dt * 3600 + minute dt * 60 + second dt + off in
  let days := toordinal dt + total / 86400 in
  let seconds := total mod 86400 in
  let hh := seconds / 3600 in
  let rem := seconds mod 3600 in
  if (0 <? days) && (days <=? MAXORDINAL) then
    let '(y, m, d) := ord2ymd days in
    Some (DT y m d hh (rem / 60) (rem mod 60) (microsecond dt))
  else None.

(** Seconds from 0001-01-01T00:00:00; datetimes compare as these
    numbers (with the microseconds) do. *)
Definition seconds_of (dt : datetime) : Z :=
  (toordinal dt - 1) * 86400 + hour dt * 3600 + minute dt * 60 + second dt.

Definition key (dt : datetime) : Z :=
  seconds_of dt * 1000000 + microsecond dt.

(** *** strptime *)

Definition digit (c : ascii) : option Z :=
  let n := Z.of_N (N_of_ascii c) in
  if (48 <=? n) && (n <=? 57) then Some (n - 48) else None.

(** A directive whose pattern is an alternation of two-digit forms
    [ok2] tried before the one-digit form [ok1]. *)
Definition num2 (ok2 : Z -> Z -> bool) (ok1 : Z -> bool) (s : string)
  : option (Z * string) :=
  match s with
  | String c1 rest =>
      d1 ← digit c1;
      let one := if ok1 d1 then Some (d1, rest) else None in
      match rest with
      | String c2 rest' =>
          match digit c2 with
          | Some d2 => if ok2 d1 d2 then Some (10 * d1 + d2, rest') else one
          | None => one
          end
      | EmptyString => one
      end
  | EmptyString => None
  end.

(** [%m]: [1[0-2]|0[1-9]|[1-9]] *)
Definition dir_m : string -> option (Z * string) :=
  num2 (fun a b => (a =? 1) && (b <=? 2) || (a =? 0) && (1 <=? b))
       (fun a => 1 <=? a).

(** [%d]: [3[0-1]|[1-2]\d|0[1-9]|[1-9]| [1-9]] *)
Definition dir_d (s : string) : option (Z * string) :=
  match num2 (fun a b => (a =? 3) && (b <=? 1) || (1 <=? a) && (a <=? 2)
                         || (a =? 0) && (1 <=? b))
             (fun a => 1 <=? a) s with
  | Some r => Some r
  | None =>
      match s with
      | String " " (String c rest) =>
          d1 ← digit c; if 1 <=? d1 then Some (d1, rest) else None
      | _ => None
      end
  end.

(** [%H]: [2[0-3]|[0-1]\d|\d] *)
Definition dir_H : string -> option (Z * string) :=
  num2 (fun a b => (a =? 2) && (b <=? 3) || (a <=? 1)) (fun _ => true).

(** [%M]: [[0-5]\d|\d] *)
Definition dir_M : string -> option (Z * string) :=
  num2 (fun a _ => a <=? 5) (fun _ => true).

(** [%S]: [6[0-1]|[0-5]\d|\d] *)
Definition dir_S : string -> option (Z * string) :=
  num2 (fun a b => (a =? 6) && (b <=? 1) || (a <=? 5)) (fun _ => true).

(** [%Y]: four digits. *)
Definition dir_Y (s : string) : option (Z * string) :=
  match s with
  | String c1 (String c2 (String c3 (String c4 rest))) =>
      d1 ← digit c1; d2 ← digit c2; d3 ← digit c3; d4 ← digit c4;
      Some (1000 * d1 + 100 * d2 + 10 * d3 + d4, rest)
  | _ => None
  end.

(** Up to [fuel] further digits of [%f]: the value read so far, the
    number of digits missing to six, and the rest. *)
Fixpoint frac_digits (fuel : nat) (acc : Z) (s : string) : Z * nat * string :=
  match fuel with
  | O => (acc, O, s)
  | S fuel' =>
      match s with
      | String c rest =>
          match digit c with
          | Some d => frac_digits fuel' (10 * acc + d) rest
          | None => (acc, fuel, s)
          end
      | EmptyString => (acc, fuel, s)
      end
  end.

(** [%f]: one to six digits, padded with zeros on the right. *)
Definition dir_f (s : string) : option (Z * string) :=
  match s with
  | String c rest =>
      d ← digit c;
      let '(v, missing, rest') := frac_digits 5 d rest in
      Some (v * 10 ^ Z.of_nat missing, rest')
  | EmptyString => None
  end.

(** A literal character of the format; the pattern is compiled with
    [IGNORECASE]. *)
Definition lit (c c' : ascii) (s : string) : option string :=
  match s with
  | String x rest =>
      if Ascii.eqb x c || Ascii.eqb x c' then Some rest else None
  | EmptyString => None
  end.

(** [datetime.strptime(s, "%Y-%m-%dT%H:%M:%S.%fZ")] *)
Definition strptime (v : scalar) : option datetime :=
  match v with
  | SStr s =>
      '(y, s) ← dir_Y s; s ← lit "-" "-" s;
      '(m, s) ← dir_m s; s ← lit "-" "-" s;
      '(d, s) ← dir_d s; s ← lit "T" "t" s;
      '(hh, s) ← dir_H s; s ← lit ":" ":" s;
      '(mm, s) ← dir_M s; s ← lit ":" ":" s;
      '(ss, s) ← dir_S s; s ← lit "." "." s;
      '(us, s) ← dir_f s; s ← lit "Z" "z" s;
      if String.eqb s "" then make y m d hh mm ss us else None
  | _ => None
  end.

(** *** strftime *)

Definition digit_char (d : Z) : ascii :=
  ascii_of_N (Z.to_N (48 + d)).

Definition fmt2 (n : Z) : string :=
  String (digit_char (n / 10)) (String (digit_char (n mod 10)) "").

Definition fmt4 (n : Z) : string :=
  String (digit_char (n / 1000))
    (String (digit_char (n / 100 mod 10)) (fmt2 (n mod 100))).

(** [dt.strftime("%Y-%m-%dT%H:%M:%S")], the year written with four
    digits. *)
Definition strftime (dt : datetime) : string :=
  fmt4 (year dt) +:+ "-" +:+ fmt2 (month dt) +:+ "-" +:+ fmt2 (day dt)
  +:+ "T" +:+ fmt2 (hour dt) +:+ ":" +:+ fmt2 (minute dt) +:+ ":"
  +:+ fmt2 (second dt).

End Datetime.

Import Datetime.

(** ** Time zones

    A zone of [pytz]: the UTC instants at which the offset changes and
    the offset (in seconds) in force from each of them on. *)

Abbreviation tzinfo := (list (datetime * Z)).

(** [bisect_right(times, dt)] on the sorted list of transition times. *)
Fixpoint bisect_right (tz : tzinfo) (dt : datetime) : nat :=
  match tz with
  | (t, _) :: rest =>
      if Datetime.key t <=? Datetime.key dt then S (bisect_right rest dt) else O
  | [] => O
  end.

(** [tz.fromutc(dt)] *)
Definition fromutc (tz : tzinfo) (dt : datetime) : option datetime :=
  let idx := Nat.max 0 (bisect_right tz dt - 1) in
  inf ← tz !! idx;
  add_seconds dt (snd inf).

(** ** convert_tz *)

Definition convert_tz (central_timezone : tzinfo) (date_str : scalar) : option scalar :=
  if negb (Py.truthy date_str) then Some SNone
  else
    utc_datetime ← strptime date_str;
    central_datetime ← fromutc central_timezone utc_datetime;
    Some (SStr (strftime central_datetime)).

(** ** transform *)

(** [{key: d[key] for key in keys}] *)
Fixpoint project (keys : list string) (d : dict) : option dict :=
  match keys with
  | [] => Some ∅
  | key :: rest =>
      v ← d !! key;
      out ← project rest d;
      Some (<[key := v]> out)
  end.

(** [d[key] = convert_tz(d[key])] *)
Definition convert_field (tz : tzinfo) (key : string) (d : dict) : option dict :=
  v ← d !! key;
  v' ← convert_tz tz v;
  Some (<[key := v']> d).

(** [for item in items: metadata[item["key"]] = item["value"]] *)
Definition add_metadata (items : list kv) (metadata : dict) : dict :=
  foldl (fun m item => <[kv_key item := kv_value item]> m) metadata items.

(** The [metadata] dictionary: private metadata first, then the
    non-private ones. *)
Definition merged_metadata (c : classification) : dict :=
  let metadata :=
    match domain_private_metadata c with
    | Some items => add_metadata items ∅
    | None => ∅
    end in
  add_metadata (domain_metadata c) metadata.

(** [for field in fields: ...] *)
Definition copy_fields (metadata : dict) (filtered_data : dict) : dict :=
  foldl (fun out '(field, name) =>
           match metadata !! field with
           | Some v => <[name := v]> out
           | None => <[name := SStr ""]> out
           end)
        filtered_data fields.

Definition tags_of (c : classification) : string :=
  match domain_tags c with
  | Some tags => Py.join ", " (Py.str <$> tags)
  | None => ""
  end.

(** [row["resource"][key] = row["resource"]["page_views"][key]] *)
Definition store_page_view (key : string) (row : asset) : option asset :=
  v ← page_views row !! key;
  Some (set_resource (<[key := v]> (resource row)) row).

(** The first three statements of the loop body of [transform], which
    write into the row. *)
Definition store_page_views (row : asset) : option asset :=
  row ← store_page_view "page_views_last_week" row;
  row ← store_page_view "page_views_last_month" row;
  store_page_view "page_views_total" row.

(** The rest of the loop body, which builds [filtered_data] from the
    row. *)
Definition flatten (tz : tzinfo) (row : asset) : option dict :=
  filtered_data ← project OUT_FIELDS (resource row);
  pub ← is_public row;
  id ← filtered_data !! "id";
  url ← Py.str_add (if pub then BASE_URL else EDP_URL) id;
  let filtered_data := <["dataset_url" := SStr url]> filtered_data in
  let filtered_data := <["is_public" := SBool pub]> filtered_data in
  filtered_data ← convert_field tz "updatedAt" filtered_data;
  filtered_data ← convert_field tz "createdAt" filtered_data;
  filtered_data ← convert_field tz "metadata_updated_at" filtered_data;
  filtered_data ← convert_field tz "data_updated_at" filtered_data;
  filtered_data ← convert_field tz "publication_date" filtered_data;
  let filtered_data :=
    <["owner_display_name" := display_name (asset_owner row)]> filtered_data in
  let filtered_data :=
    <["tags" := SStr (tags_of (asset_classification row))]> filtered_data in
  let metadata := merged_metadata (asset_classification row) in
  Some (copy_fields metadata filtered_data).

(** The body of the loop of [transform]: the row as the iteration
    leaves it, and the record appended to [output_data]. *)
Definition transform_row (tz : tzinfo) (row : asset) : option (asset * dict) :=
  row ← store_page_views row;
  filtered_data ← flatten tz row;
  Some (row, filtered_data).

(** [transform]: the rows after the loop, and [output_data]. *)
Fixpoint transform (tz : tzinfo) (data : list asset) : option (list asset * list dict) :=
  match data with
  | [] => Some ([], [])
  | row :: rest =>
      '(row', out) ← transform_row tz row;
      '(rest', outs) ← transform tz rest;
      Some (row' :: rest', out :: outs)
  end.

(** ** fetch and get_row_counts

    The query endpoint is a function from the request URL to the decoded
    JSON body, a list of objects; [None] stands for a request that
    raises (connection error, timeout, a body that is not a list). *)

Definition endpoint : Type := string -> option (list dict).

Definition count_url (resource_id : scalar) : string :=
  "https://datahub.austintexas.gov/resource/" +:+ Py.str resource_id
  +:+ ".json?$select=count(*) as count".

(** The dictionary [{"id": ..., "row_count": ...}] that [fetch] returns. *)
Record count_result : Type := CountResult {
  result_id : scalar;
  result_row_count : scalar
}.

Definition fetch (session : endpoint) (resource_id : scalar) : option count_result :=
  res ← session (count_url resource_id);
  first ← res !! 0%nat;
  count ← first !! "count";
  Some (CountResult resource_id count).

(** The first loop of [get_row_counts]: the identifiers of the tasks. *)
Fixpoint make_tasks (data : list dict) : option (list scalar) :=
  match data with
  | [] => Some []
  | row :: rest =>
      ty ← row !! "type";
      if Py.eq ty (SStr "dataset") then
        id ← row !! "id";
        tasks ← make_tasks rest;
        Some (id :: tasks)
      else make_tasks rest
  end.

(** [await asyncio.gather] over the tasks: the results in the order of the
    tasks, or the exception of a task that raised. *)
Definition gather (session : endpoint) (tasks : list scalar) : option (list count_result) :=
  mapM (fetch session) tasks.

(** [for row in data: if row["id"] == result["id"]: ...] *)
Definition merge_result (result : count_result) (data : list dict) : option (list dict) :=
  mapM (fun row : dict =>
          id ← row !! "id";
          Some (if Py.eq id (result_id result)
                then <["row_count" := result_row_count result]> row
                else row))
       data.

Fixpoint merge_results (results : list count_result) (data : list dict) : option (list dict) :=
  match results with
  | [] => Some data
  | result :: rest =>
      data ← merge_result result data;
      merge_results rest data
  end.

Definition get_row_counts (session : endpoint) (data : list dict) : option (list dict) :=
  tasks ← make_tasks data;
  results ← gather session tasks;
  merge_results results data.

(** ** main

    [main] returns the records it hands to [load] for publication;
    [None] when an exception ends the run before [load] is called. *)
Definition main (tz : tzinfo) (odp_results edp_results : list asset)
           (session : endpoint) : option (list dict) :=
  data ← extract odp_results edp_results;
  '(_, data) ← transform tz data;
  data ← get_row_counts session data;
  Some data.

(** ** The US/Central zone *)

(** Weekday as [date.weekday()] numbers it: Monday is 0, Sunday is 6. *)
Definition weekday (y m d : Z) : Z := (ymd2ord y m d + 6) mod 7.

(** Day of the month of the [n]-th Sunday of month [m] of year [y]. *)
Definition nth_sunday (y m : Z) (n : Z) : Z :=
  1 + (6 - weekday y m 1) mod 7 + 7 * (n - 1).

(** Offsets from UTC, in seconds, of Central Standard Time and Central
    Daylight Time. *)
Definition CST : Z := -21600.
Definition CDT : Z := -18000.

(** Modelled from the spec: the zone table that [pytz.timezone("US/Central")]
    loads belongs to the pytz package and is not in the repository. These
    are its transitions under the rule in force since 2007 (daylight
    saving time from 02:00 local time on the second Sunday of March to
    02:00 local time on the first Sunday of November), from the return to
    standard time in 2006 to 2037, the last year the table of the package
    covers. Earlier transitions are left out: the table stands for the
    zone for instants from 2007 to 2037 only. *)
Definition US_Central : tzinfo :=
  [
    (DT 2006 10 29 7 0 0 0, CST);
    (DT 2007 3 11 8 0 0 0, CDT); (DT 2007 11 4 7 0 0 0, CST);
    (DT 2008 3 9 8 0 0 0, CDT); (DT 2008 11 2 7 0 0 0, CST);
    (DT 2009 3 8 8 0 0 0, CDT); (DT 2009 11 1 7 0 0 0, CST);
    (DT 2010 3 14 8 0 0 0, CDT); (DT 2010 11 7 7 0 0 0, CST);
    (DT 2011 3 13 8 0 0 0, CDT); (DT 2011 11 6 7 0 0 0, CST);
    (DT 2012 3 11 8 0 0 0, CDT); (DT 2012 11 4 7 0 0 0, CST);
    (DT 2013 3 10 8 0 0 0, CDT); (DT 2013 11 3 7 0 0 0, CST);
    (DT 2014 3 9 8 0 0 0, CDT); (DT 2014 11 2 7 0 0 0, CST);
    (DT 2015 3 8 8 0 0 0, CDT); (DT 2015 11 1 7 0 0 0, CST);
    (DT 2016 3 13 8 0 0 0, CDT); (DT 2016 11 6 7 0 0 0, CST);
    (DT 2017 3 12 8 0 0 0, CDT); (DT 2017 11 5 7 0 0 0, CST);
    (DT 2018 3 11 8 0 0 0, CDT); (DT 2018 11 4 7 0 0 0, CST);
    (DT 2019 3 10 8 0 0 0, CDT); (DT 2019 11 3 7 0 0 0, CST);
    (DT 2020 3 8 8 0 0 0, CDT); (DT 2020 11 1 7 0 0 0, CST);
    (DT 2021 3 14 8 0 0 0, CDT); (DT 2021 11 7 7 0 0 0, CST);
    (DT 2022 3 13 8 0 0 0, CDT); (DT 2022 11 6 7 0 0 0, CST);
    (DT 2023 3 12 8 0 0 0, CDT); (DT 2023 11 5 7 0 0 0, CST);
    (DT 2024 3 10 8 0 0 0, CDT); (DT 2024 11 3 7 0 0 0, CST);
    (DT 2025 3 9 8 0 0 0, CDT); (DT 2025 11 2 7 0 0 0, CST);
    (DT 2026 3 8 8 0 0 0, CDT); (DT 2026 11 1 7 0 0 0, CST);
    (DT 2027 3 14 8 0 0 0, CDT); (DT 2027 11 7 7 0 0 0, CST);
    (DT 2028 3 12 8 0 0 0, CDT); (DT 2028 11 5 7 0 0 0, CST);
    (DT 2029 3 11 8 0 0 0, CDT); (DT 2029 11 4 7 0 0 0, CST);
    (DT 2030 3 10 8 0 0 0, CDT); (DT 2030 11 3 7 0 0 0, CST);
    (DT 2031 3 9 8 0 0 0, CDT); (DT 2031 11 2 7 0 0 0, CST);
    (DT 2032 3 14 8 0 0 0, CDT); (DT 2032 11 7 7 0 0 0, CST);
    (DT 2033 3 13 8 0 0 0, CDT); (DT 2033 11 6 7 0 0 0, CST);
    (DT 2034 3 12 8 0 0 0, CDT); (DT 2034 11 5 7 0 0 0, CST);
    (DT 2035 3 11 8 0 0 0, CDT); (DT 2035 11 4 7 0 0 0, CST);
    (DT 2036 3 9 8 0 0 0, CDT); (DT 2036 11 2 7 0 0 0, CST);
    (DT 2037 3 8 8 0 0 0, CDT); (DT 2037 11 1 7 0 0 0, CST)
  ].

(** * Specification *)

(** ** Classification and filtering *)

(** The category of an asset, the empty string when the key is missing. *)
Definition category_or_empty (a : asset) : scalar :=
  default (SStr "") (domain_category (asset_classification a)).

(** The identifier of [a] is the string [s]. *)
Definition has_id (a : asset) (s : string) : Prop :=
  resource a !! "id" = Some (SStr s).

Definition has_str_id (a : asset) : Prop := ∃ s, has_id a s.

(** [c] occurs in [s]. *)
Definition occurs (c : ascii) (s : string) : Prop :=
  ∃ pre post, s = pre +:+ String c post.

(** The retention predicate of the filter, in the words of the design:
    owner or category match, and no colon in the identifier. *)
Definition retained (a : asset) : Prop :=
  (owner_id (asset_owner a) = SStr ATD_USER_ID
   ∨ category_or_empty a = SStr CATEGORY)
  ∧ ∀ s, has_id a s → ¬ occurs ":" s.

Definition retainedb (a : asset) : bool :=
  (Py.eq (owner_id (asset_owner a)) (SStr ATD_USER_ID)
   || Py.eq (category_or_empty a) (SStr CATEGORY))
  && match resource a !! "id" with
     | Some (SStr s) => negb (Py.has_char ":" s)
     | _ => true
     end.

(** ** Timestamps *)

(** The text [YYYY-MM-DDTHH:MM:SS.fZ] for the given fields and fraction
    digits. *)
Definition utc_string (y m d hh mm ss : Z) (frac : string) : string :=
  fmt4 y +:+ "-" +:+ fmt2 m +:+ "-" +:+ fmt2 d +:+ "T" +:+ fmt2 hh
  +:+ ":" +:+ fmt2 mm +:+ ":" +:+ fmt2 ss +:+ "." +:+ frac +:+ "Z".

Fixpoint all_digits (s : string) : bool :=
  match s with
  | EmptyString => true
  | String c s' => bool_decide (is_Some (digit c)) && all_digits s'
  end.

(** One to six digits. *)
Definition fraction (frac : string) : Prop :=
  all_digits frac = true ∧ (1 <= String.length frac <= 6)%nat.

(** The fields name a day of the calendar and a time of that day. *)
Definition civil (y m d hh mm ss : Z) : Prop :=
  1 <= y <= 9999 ∧ 1 <= m <= 12 ∧ 1 <= d <= days_in_month y m
  ∧ 0 <= hh <= 23 ∧ 0 <= mm <= 59 ∧ 0 <= ss <= 59.

(** A timestamp of the catalog: null or empty, or a UTC time in the
    format above; the first and the last year of the calendar are left
    out, where the shift to local time can leave the range of dates. *)
Definition wf_timestamp (v : scalar) : Prop :=
  Py.truthy v = false
  ∨ ∃ y m d hh mm ss frac,
      v = SStr (utc_string y m d hh mm ss frac)
      ∧ civil y m d hh mm ss ∧ 2 <= y <= 9998 ∧ fraction frac.

(** A zone table has an entry, and its offsets are less than a day. *)
Definition wf_tzinfo (tz : tzinfo) : Prop :=
  tz ≠ [] ∧ Forall (fun e => -86400 < snd e < 86400) tz.

(** The instants at which daylight saving time starts and ends in the
    year [y] in the Central zone, in seconds of UTC from 0001-01-01:
    02:00 standard time (08:00 UTC) on the second Sunday of March, and
    02:00 daylight time (07:00 UTC) on the first Sunday of November. *)
Definition dst_start (y : Z) : Z :=
  seconds_of (DT y 3 (nth_sunday y 3 2) 8 0 0 0).

Definition dst_end (y : Z) : Z :=
  seconds_of (DT y 11 (nth_sunday y 11 1) 7 0 0 0).

(** The offset of Central time from UTC at the UTC time [utc]. *)
Definition central_offset (utc : datetime) : Z :=
  if (dst_start (year utc) <=? seconds_of utc)
     && (seconds_of utc <? dst_end (year utc))
  then CDT else CST.

(** ** Flattening *)

Definition PAGE_VIEW_FIELDS : list string :=
  [ "page_views_last_week"; "page_views_last_month"; "page_views_total" ].

Definition TIME_FIELDS : list string :=
  [ "updatedAt"; "createdAt"; "metadata_updated_at"; "data_updated_at";
    "publication_date" ].

(** The keys of an output record before the row count is added. *)
Definition OUT_SCHEMA : list string :=
  OUT_FIELDS
  ++ [ "dataset_url"; "is_public"; "owner_display_name"; "tags" ]
  ++ (snd <$> fields).

(** An asset as [extract] hands it to [transform]: the page view counts
    and the projected resource keys are there, the identifier is a
    string, the timestamps are timestamps, and the asset is classified. *)
Definition wf_asset (row : asset) : Prop :=
  (∀ k, k ∈ PAGE_VIEW_FIELDS → is_Some (page_views row !! k))
  ∧ (∀ k, k ∈ OUT_FIELDS → k ∉ PAGE_VIEW_FIELDS → is_Some (resource row !! k))
  ∧ has_str_id row
  ∧ (∀ k v, k ∈ TIME_FIELDS → resource row !! k = Some v → wf_timestamp v)
  ∧ is_Some (is_public row).

(** The resource of a row with the three page view counts stored in it. *)
Definition with_page_views (row : asset) : dict :=
  foldl (fun r k => match page_views row !! k with
                    | Some v => <[k := v]> r
                    | None => r
                    end)
        (resource row) PAGE_VIEW_FIELDS.

(** The entries of a metadata list under the key [field]. *)
Definition values_of (field : string) (items : list kv) : list scalar :=
  kv_value <$> filter (fun item => kv_key item = field) items.

(** ** Enrichment *)

(** The record is of type ["dataset"]. *)
Definition is_dataset (row : dict) : Prop :=
  row !! "type" = Some (SStr "dataset").

(** No two records of [data] have identifiers that [==] holds equal. *)
Definition unique_ids (data : list dict) : Prop :=
  ∀ (i j : nat) (row_i row_j : dict) (id_i id_j : scalar),
    data !! i = Some row_i → data !! j = Some row_j →
    row_i !! "id" = Some id_i → row_j !! "id" = Some id_j →
    Py.eq id_i id_j = true → i = j.

(** The count that the endpoint answers for the identifier [id]. *)
Definition answers (session : endpoint) (id count : scalar) : Prop :=
  ∃ res first,
    session (count_url id) = Some res
    ∧ res !! 0%nat = Some first
    ∧ first !! "count" = Some count.

(** What the merge loop does to one row, result after result. *)
Fixpoint apply_results (results : list count_result) (row : dict) : option dict :=
  match results with
  | [] => Some row
  | result :: rest =>
      id ← row !! "id";
      apply_results rest
        (if Py.eq id (result_id result)
         then <["row_count" := result_row_count result]> row
         else row)
  end.

(** The records of the enrichment examples: two datasets and a map. *)
Definition record_a : dict :=
  list_to_map [("id", SStr "aaaa-0001"); ("type", SStr "dataset")].
Definition record_b : dict :=
  list_to_map [("id", SStr "bbbb-0002"); ("type", SStr "dataset")].
Definition record_m : dict :=
  list_to_map [("id", SStr "mmmm-0003"); ("type", SStr "map")].

Definition enrichment_data : list dict := [record_a; record_m; record_b].

(** An endpoint that answers the count of [aaaa-0001] and of [bbbb-0002]
    as strings of digits, the way the query endpoint does. *)
Definition session_ok : endpoint :=
  fun url =>
    if String.eqb url (count_url (SStr "aaaa-0001"))
    then Some [ {[ "count" := SStr "42" ]} ]
    else if String.eqb url (count_url (SStr "bbbb-0002"))
    then Some [ {[ "count" := SStr "7" ]} ]
    else None.

(** An endpoint whose request for [aaaa-0001] raises. *)
Definition session_a_fails : endpoint :=
  fun url =>
    if String.eqb url (count_url (SStr "bbbb-0002"))
    then Some [ {[ "count" := SStr "7" ]} ]
    else None.

(** * Proofs *)

Section PythonFacts.

Lemma py_eq_str (v : scalar) (s : string) : Py.eq v (SStr s) = true ↔ v = SStr s.
Proof.
  destruct v; simpl; try (split; [discriminate | congruence]).
  rewrite String.eqb_eq. split; congruence.
Qed.

Lemma py_in_list_str (s : string) (l : list scalar) :
  Py.in_list (SStr s) l = true ↔ SStr s ∈ l.
Proof.
  unfold Py.in_list. rewrite existsb_exists. split.
  - intros (x & Hx & He). destruct x; simpl in He; try discriminate.
    apply String.eqb_eq in He. subst. by apply list_elem_of_In.
  - intros H. exists (SStr s). split; [by apply list_elem_of_In |].
    simpl. apply String.eqb_refl.
Qed.

Lemma has_char_occurs (c : ascii) (s : string) :
  Py.has_char c s = true ↔ occurs c s.
Proof.
  unfold occurs. induction s as [|x s IH]; simpl.
  - split; [discriminate |]. intros ([|? ?] & post & H); discriminate.
  - rewrite orb_true_iff, IH, Ascii.eqb_eq. split.
    + intros [-> | (pre & post & ->)].
      * by exists "", s.
      * by exists (String x pre), post.
    + intros ([|y pre] & post & H); simpl in H; injection H as -> ->.
      * by left.
      * right. by exists pre, post.
Qed.

Lemma retainedb_spec (a : asset) : retainedb a = true ↔ retained a.
Proof.
  unfold retainedb, retained, has_id.
  rewrite andb_true_iff, orb_true_iff, !py_eq_str.
  apply and_iff_compat_l.
  destruct (resource a !! "id") as [[| | |s]|]; try (split; [intros _ ? [=] | done]).
  rewrite negb_true_iff, <- not_true_iff_false, has_char_occurs. split.
  - intros H ? [= <-]. done.
  - intros H. by apply H.
Qed.

End PythonFacts.

Section Extract.

Variable odp_ids : list scalar.

(** The asset as one iteration of the loop leaves it. *)
Lemma extract_step_str (a : asset) (s : string) :
  has_id a s →
  extract_step odp_ids a
  = Some (default_category (set_is_public (Py.in_list (SStr s) odp_ids) a),
          retainedb a).
Proof.
  unfold has_id, extract_step, retainedb, category_or_empty, default_category.
  intros Hid. rewrite Hid. simpl.
  destruct a as [r pv [cat tags md pmd] o pub]; simpl in *.
  destruct cat as [c|]; simpl; rewrite Hid; simpl;
    by destruct (Py.eq (owner_id o) (SStr ATD_USER_ID) || _).
Qed.

Lemma extract_loop_total (edp : list asset) :
  Forall has_str_id edp →
  ∃ edp' data, extract_loop odp_ids edp = Some (edp', data).
Proof.
  induction 1 as [|a edp [s Ha] _ (edp' & data & IH)]; simpl; [by eauto |].
  rewrite (extract_step_str a s Ha). simpl. rewrite IH. simpl. eauto.
Qed.

Lemma extract_loop_inv (a : asset) (edp edp0 data0 : list asset) (s : string) :
  has_id a s →
  extract_loop odp_ids (a :: edp) = Some (edp0, data0) →
  ∃ edp' data,
    extract_loop odp_ids edp = Some (edp', data)
    ∧ edp0 = default_category (set_is_public (Py.in_list (SStr s) odp_ids) a) :: edp'
    ∧ data0 = (if retainedb a
               then default_category (set_is_public (Py.in_list (SStr s) odp_ids) a) :: data
               else data).
Proof.
  intros Ha. simpl. rewrite (extract_step_str a s Ha). simpl.
  destruct (extract_loop odp_ids edp) as [[edp' data]|]; simpl; [|done].
  intros [= <- <-]. eauto.
Qed.

Lemma default_category_frame (a : asset) :
  resource (default_category a) = resource a
  ∧ asset_owner (default_category a) = asset_owner a
  ∧ is_public (default_category a) = is_public a
  ∧ domain_category (asset_classification (default_category a))
    = Some (category_or_empty a).
Proof.
  unfold default_category, category_or_empty.
  by destruct a as [r pv [[c|] tags md pmd] o pub].
Qed.

Lemma retainedb_ext (a a' : asset) :
  resource a' = resource a →
  asset_owner a' = asset_owner a →
  category_or_empty a' = category_or_empty a →
  retainedb a' = retainedb a.
Proof. unfold retainedb. by intros -> -> ->. Qed.

End Extract.

Lemma odp_ids_of_total (odp : list asset) :
  Forall (fun a => is_Some (resource a !! "id")) odp →
  ∃ ids, odp_ids_of odp = Some ids.
Proof.
  unfold odp_ids_of. induction 1 as [|a odp [v Hv] _ [ids IH]]; simpl; [by eauto |].
  rewrite Hv. simpl. rewrite IH. simpl. eauto.
Qed.

Lemma odp_ids_of_elem (odp : list asset) (ids : list scalar) (v : scalar) :
  odp_ids_of odp = Some ids →
  v ∈ ids ↔ ∃ p, p ∈ odp ∧ resource p !! "id" = Some v.
Proof.
  unfold odp_ids_of. revert ids.
  induction odp as [|a odp IH]; simpl; intros ids.
  - intros [= <-]. split; [by intros ?%elem_of_nil |].
    by intros (? & ?%elem_of_nil & _).
  - destruct (resource a !! "id") as [w|] eqn:Hw; simpl; [|done].
    destruct (mapM _ odp) as [ids'|] eqn:Hm; simpl; [|done].
    intros [= <-]. rewrite elem_of_cons, (IH ids' eq_refl). split.
    + intros [-> | (p & Hp & Hv)]; [exists a | exists p]; by rewrite elem_of_cons; auto.
    + intros (p & [-> | Hp]%elem_of_cons & Hv); [left; congruence | right; eauto].
Qed.

(** C1. Every asset of the full view is classified, in place and in
    order: after the loop its [is_public] is set, and it is [True]
    exactly when the asset's identifier is the identifier of an asset of
    the public view. No asset returned by [extract] carries an identifier
    that the full view does not have. *)
Theorem extract_classifies_every_asset (odp_results edp_results : list asset) :
  Forall (fun p => is_Some (resource p !! "id")) odp_results →
  Forall has_str_id edp_results →
  ∃ odp_ids edp' data,
    odp_ids_of odp_results = Some odp_ids
    ∧ extract_loop odp_ids edp_results = Some (edp', data)
    ∧ extract odp_results edp_results = Some data
    ∧ length edp' = length edp_results
    ∧ (∀ (i : nat) a s, edp_results !! i = Some a → has_id a s →
         ∃ a' b, edp' !! i = Some a' ∧ has_id a' s ∧ is_public a' = Some b
                 ∧ (b = true ↔ ∃ p, p ∈ odp_results ∧ has_id p s))
    ∧ (∀ s, (¬ ∃ a, a ∈ edp_results ∧ has_id a s) →
            ¬ ∃ a', a' ∈ data ∧ has_id a' s).
Proof.
  intros Hodp Hedp.
  destruct (odp_ids_of_total _ Hodp) as [ids Hids].
  destruct (extract_loop_total ids _ Hedp) as (edp' & data & Hloop).
  exists ids, edp', data. split; [done |]. split; [done |].
  split; [unfold extract; rewrite Hids; simpl; by rewrite Hloop |].
  clear Hodp. revert edp' data Hloop.
  induction Hedp as [|a edp [s Ha] Hedp IH]; intros edp' data Hloop.
  - injection Hloop as <- <-. split; [done |]. split; [by intros [] |].
    by intros s _ (? & ?%elem_of_nil & _).
  - apply (extract_loop_inv ids a edp edp' data s Ha) in Hloop
      as (edp1 & data1 & Hloop & -> & ->).
    destruct (IH _ _ Hloop) as (Hlen & Hcls & Hout).
    destruct (default_category_frame (set_is_public (Py.in_list (SStr s) ids) a))
      as (Hres & _ & Hpub & _).
    split; [simpl; congruence |]. split.
    + intros [|i] a0 s0 Hi Hs0; simpl in *; [|by eauto].
      injection Hi as <-.
      assert (s0 = s) as -> by (unfold has_id in *; congruence).
      eexists _, _. split; [done |].
      split; [unfold has_id; by rewrite Hres |].
      split; [by rewrite Hpub |].
      rewrite py_in_list_str. apply (odp_ids_of_elem _ _ _ Hids).
    + intros s0 Hnone (a' & Ha' & Hid').
      assert (¬ ∃ a0, a0 ∈ edp ∧ has_id a0 s0) as Hnone'.
      { intros (a0 & ? & ?). apply Hnone. exists a0. by rewrite elem_of_cons; auto. }
      destruct (retainedb a); [|by apply (Hout s0 Hnone'); eauto].
      apply elem_of_cons in Ha' as [-> | Ha']; [|by apply (Hout s0 Hnone'); eauto].
      apply Hnone. exists a. split; [by left |].
      unfold has_id in *. by rewrite Hres in Hid'.
Qed.

Definition odp_example : list asset :=
  [ Asset {[ "id" := SStr "pub1-0001" ]} ∅ (Classification None None [] None)
          (Owner (SStr "aaaa-0000") (SStr "Other")) None ].

Definition edp_example : list asset :=
  [ Asset {[ "id" := SStr "pub1-0001" ]} ∅
          (Classification (Some (SStr CATEGORY)) None [] None)
          (Owner (SStr "aaaa-0000") (SStr "Other")) None;
    Asset {[ "id" := SStr "abcd-1234" ]} ∅ (Classification None None [] None)
          (Owner (SStr ATD_USER_ID) (SStr "DTS")) None;
    Asset {[ "id" := SStr "abcd-1234:v2" ]} ∅ (Classification None None [] None)
          (Owner (SStr ATD_USER_ID) (SStr "DTS")) None;
    Asset {[ "id" := SStr "zzzz-9999" ]} ∅ (Classification None None [] None)
          (Owner (SStr "aaaa-0000") (SStr "Other")) None ].

Lemma extract_classifies_every_asset_witness :
  ∃ odp_ids edp' data,
    odp_ids_of odp_example = Some odp_ids
    ∧ extract_loop odp_ids edp_example = Some (edp', data)
    ∧ extract odp_example edp_example = Some data
    ∧ length edp' = length edp_example
    ∧ (∀ (i : nat) a s, edp_example !! i = Some a → has_id a s →
         ∃ a' b, edp' !! i = Some a' ∧ has_id a' s ∧ is_public a' = Some b
                 ∧ (b = true ↔ ∃ p, p ∈ odp_example ∧ has_id p s))
    ∧ (∀ s, (¬ ∃ a, a ∈ edp_example ∧ has_id a s) →
            ¬ ∃ a', a' ∈ data ∧ has_id a' s).
Proof.
  apply (extract_classifies_every_asset odp_example edp_example).
  - repeat constructor; by eexists.
  - repeat constructor; by eexists.
Defined.

(** C2. [extract] returns, in the order of the full view, exactly the
    assets that satisfy the retention predicate: owner or category match,
    and no colon in the identifier. A missing [domain_category] does not
    raise: the asset gets the empty string as its category and is judged
    with it. *)
Theorem extract_retains_by_predicate (odp_results edp_results : list asset) :
  Forall (fun p => is_Some (resource p !! "id")) odp_results →
  Forall has_str_id edp_results →
  ∃ odp_ids edp' data,
    odp_ids_of odp_results = Some odp_ids
    ∧ extract_loop odp_ids edp_results = Some (edp', data)
    ∧ extract odp_results edp_results = Some data
    ∧ data = filter (fun a' => retainedb a' = true) edp'
    ∧ (∀ a', a' ∈ edp' → (a' ∈ data ↔ retained a'))
    ∧ Forall2 (fun a a' =>
                 resource a' = resource a
                 ∧ asset_owner a' = asset_owner a
                 ∧ domain_category (asset_classification a')
                   = Some (category_or_empty a)
                 ∧ (retained a' ↔ retained a))
              edp_results edp'.
Proof.
  intros Hodp Hedp.
  destruct (odp_ids_of_total _ Hodp) as [ids Hids].
  destruct (extract_loop_total ids _ Hedp) as (edp' & data & Hloop).
  exists ids, edp', data. split; [done |]. split; [done |].
  split; [unfold extract; rewrite Hids; simpl; by rewrite Hloop |].
  assert (data = filter (fun a' => retainedb a' = true) edp'
          ∧ Forall2 (fun a a' =>
                 resource a' = resource a
                 ∧ asset_owner a' = asset_owner a
                 ∧ domain_category (asset_classification a')
                   = Some (category_or_empty a)
                 ∧ (retained a' ↔ retained a))
              edp_results edp') as [Hdata Hall].
  { clear Hodp. revert edp' data Hloop.
    induction Hedp as [|a edp [s Ha] Hedp IH]; intros edp' data Hloop.
    - injection Hloop as <- <-. split; [done | constructor].
    - apply (extract_loop_inv ids a edp edp' data s Ha) in Hloop
        as (edp1 & data1 & Hloop & -> & ->).
      destruct (IH _ _ Hloop) as [-> Hall].
      pose proof (default_category_frame
                    (set_is_public (Py.in_list (SStr s) ids) a))
        as (Hres & Hown & _ & Hcat).
      simpl in Hres, Hown.
      assert (category_or_empty
                (default_category (set_is_public (Py.in_list (SStr s) ids) a))
              = category_or_empty a) as Hce.
      { unfold category_or_empty at 1. by rewrite Hcat. }
      pose proof (retainedb_ext a _ Hres Hown Hce) as Hb.
      split.
      + rewrite filter_cons. rewrite Hb.
        destruct (retainedb a); by case_decide.
      + constructor; [|done].
        split; [done |]. split; [done |]. split; [done |].
        by rewrite <- !retainedb_spec, Hb. }
  split; [done |]. split; [|done].
  intros a' Ha'. rewrite Hdata, list_elem_of_filter, retainedb_spec. tauto.
Qed.

Lemma extract_retains_by_predicate_witness :
  ∃ odp_ids edp' data,
    odp_ids_of odp_example = Some odp_ids
    ∧ extract_loop odp_ids edp_example = Some (edp', data)
    ∧ extract odp_example edp_example = Some data
    ∧ data = filter (fun a' => retainedb a' = true) edp'
    ∧ (∀ a', a' ∈ edp' → (a' ∈ data ↔ retained a'))
    ∧ Forall2 (fun a a' =>
                 resource a' = resource a
                 ∧ asset_owner a' = asset_owner a
                 ∧ domain_category (asset_classification a')
                   = Some (category_or_empty a)
                 ∧ (retained a' ↔ retained a))
              edp_example edp'.
Proof.
  apply (extract_retains_by_predicate odp_example edp_example).
  - repeat constructor; by eexists.
  - repeat constructor; by eexists.
Defined.

(** The scenarios of the design: the category match is retained, the
    draft identifier is dropped, the stranger is dropped. *)
Example extract_example :
  fmap (M := option)
       (fmap (M := list) (fun a : asset => (resource a !! "id", is_public a)))
       (extract odp_example edp_example)
  = Some [ (Some (SStr "pub1-0001"), Some true);
           (Some (SStr "abcd-1234"), Some false) ].
Proof. vm_compute. reflexivity. Qed.

(** ** Parsing a timestamp *)

Section Strptime.

Lemma forallb_range (P : Z → bool) (lo len : Z) :
  forallb P (seqZ lo len) = true →
  ∀ n, lo <= n < lo + len → P n = true.
Proof.
  intros H n Hn. rewrite forallb_forall in H. apply H.
  apply list_elem_of_In, elem_of_seqZ. lia.
Qed.

Lemma digit_digit_char (d : Z) : 0 <= d <= 9 → digit (digit_char d) = Some d.
Proof.
  intros Hd.
  pose proof (forallb_range
                (fun d => match digit (digit_char d) with
                          | Some x => x =? d
                          | None => false
                          end) 0 10 eq_refl d ltac:(lia)) as H.
  simpl in H. destruct (digit (digit_char d)); [|done].
  f_equal. lia.
Qed.

Lemma num2_fmt2 (ok2 : Z → Z → bool) (ok1 : Z → bool) (n : Z) (rest : string) :
  0 <= n <= 99 →
  ok2 (n / 10) (n mod 10) = true →
  num2 ok2 ok1 (fmt2 n +:+ rest) = Some (n, rest).
Proof.
  intros Hn Hok. unfold fmt2, num2. simpl.
  rewrite !digit_digit_char by (Z.to_euclidean_division_equations; lia).
  simpl. rewrite Hok. do 2 f_equal. Z.to_euclidean_division_equations; lia.
Qed.

Lemma dir_m_fmt2 (m : Z) (rest : string) :
  1 <= m <= 12 → dir_m (fmt2 m +:+ rest) = Some (m, rest).
Proof.
  intros Hm. apply num2_fmt2; [lia |].
  apply (forallb_range
           (fun m => (m / 10 =? 1) && (m mod 10 <=? 2)
                     || (m / 10 =? 0) && (1 <=? m mod 10)) 1 12);
    [by vm_compute | lia].
Qed.

Lemma dir_d_fmt2 (d : Z) (rest : string) :
  1 <= d <= 31 → dir_d (fmt2 d +:+ rest) = Some (d, rest).
Proof.
  intros Hd. unfold dir_d. rewrite num2_fmt2; [done | lia |].
  apply (forallb_range
           (fun a => (a / 10 =? 3) && (a mod 10 <=? 1)
                     || (1 <=? a / 10) && (a / 10 <=? 2)
                     || (a / 10 =? 0) && (1 <=? a mod 10)) 1 31);
    [by vm_compute | lia].
Qed.

Lemma dir_H_fmt2 (hh : Z) (rest : string) :
  0 <= hh <= 23 → dir_H (fmt2 hh +:+ rest) = Some (hh, rest).
Proof.
  intros Hh. apply num2_fmt2; [lia |].
  apply (forallb_range
           (fun a => (a / 10 =? 2) && (a mod 10 <=? 3) || (a / 10 <=? 1)) 0 24);
    [by vm_compute | lia].
Qed.

Lemma dir_M_fmt2 (mm : Z) (rest : string) :
  0 <= mm <= 59 → dir_M (fmt2 mm +:+ rest) = Some (mm, rest).
Proof.
  intros Hm. apply num2_fmt2; [lia |].
  apply Z.leb_le. Z.to_euclidean_division_equations; lia.
Qed.

Lemma dir_S_fmt2 (ss : Z) (rest : string) :
  0 <= ss <= 59 → dir_S (fmt2 ss +:+ rest) = Some (ss, rest).
Proof.
  intros Hs. apply num2_fmt2; [lia |].
  apply orb_true_iff. right.
  apply Z.leb_le. Z.to_euclidean_division_equations; lia.
Qed.

Lemma dir_Y_fmt4 (y : Z) (rest : string) :
  0 <= y <= 9999 → dir_Y (fmt4 y +:+ rest) = Some (y, rest).
Proof.
  intros Hy. unfold fmt4, fmt2, dir_Y. simpl.
  rewrite !digit_digit_char by (Z.to_euclidean_division_equations; lia).
  simpl. do 2 f_equal. Z.to_euclidean_division_equations; lia.
Qed.

Lemma frac_digits_spec (ds : string) :
  ∀ (fuel : nat) (acc : Z) (rest : string),
    all_digits ds = true →
    (String.length ds <= fuel)%nat →
    ∃ v, frac_digits fuel acc (ds +:+ String "Z" rest)
         = (v, (fuel - String.length ds)%nat, String "Z" rest)
         ∧ acc * 10 ^ Z.of_nat (String.length ds) <= v
           < (acc + 1) * 10 ^ Z.of_nat (String.length ds).
Proof.
  induction ds as [|c ds IH]; intros fuel acc rest Hds Hlen.
  - exists acc. simpl. split; [|lia].
    by destruct fuel.
  - simpl in Hds, Hlen. apply andb_true_iff in Hds as [Hc Hds].
    apply bool_decide_eq_true in Hc as [d Hd].
    destruct fuel as [|fuel]; [lia |]. simpl. rewrite Hd.
    destruct (IH fuel (10 * acc + d) rest Hds ltac:(lia)) as (v & -> & Hv).
    exists v. split; [done |].
    assert (0 <= d <= 9) as Hd9.
    { unfold digit in Hd. case_match; [|done]. injection Hd as <-. lia. }
    rewrite Nat2Z.inj_succ, Z.pow_succ_r by lia.
    assert (0 < 10 ^ Z.of_nat (String.length ds)) by (apply Z.pow_pos_nonneg; lia).
    nia.
Qed.

Lemma dir_f_fraction (frac rest : string) :
  fraction frac →
  ∃ us, dir_f (frac +:+ String "Z" rest) = Some (us, String "Z" rest)
        ∧ 0 <= us <= 999999.
Proof.
  intros [Hds Hlen]. destruct frac as [|c ds]; simpl in Hds, Hlen; [lia |].
  apply andb_true_iff in Hds as [Hc Hds].
  apply bool_decide_eq_true in Hc as [d Hd].
  assert (0 <= d <= 9) as Hd9.
  { unfold digit in Hd. case_match; [|done]. injection Hd as <-. lia. }
  destruct (frac_digits_spec ds 5 d rest Hds ltac:(lia)) as (v & Hfd & Hv).
  change (String c ds +:+ String "Z" rest)
    with (String c (ds +:+ String "Z" rest)).
  unfold dir_f. rewrite Hd. cbn [mbind option_bind]. rewrite Hfd.
  eexists. split; [done |].
  assert (String.length ds <= 5)%nat as Hl by lia.
  remember (String.length ds) as k eqn:Hk. clear Hk Hlen Hds.
  assert (k = 0 ∨ k = 1 ∨ k = 2 ∨ k = 3 ∨ k = 4 ∨ k = 5)%nat
    as [-> | [-> | [-> | [-> | [-> | ->]]]]] by lia;
    simpl in *; lia.
Qed.

Lemma make_civil (y m d hh mm ss us : Z) :
  civil y m d hh mm ss → 0 <= us <= 999999 →
  make y m d hh mm ss us = Some (DT y m d hh mm ss us).
Proof.
  intros (Hy & Hm & Hd & Hh & Hmi & Hs) Hus. unfold make.
  repeat match goal with
         | |- context [?a <=? ?b] =>
             destruct (Z.leb_spec a b); [|lia]
         end.
  done.
Qed.

Lemma days_in_month_le (y m : Z) : days_in_month y m <= 31.
Proof.
  unfold days_in_month, DAYS_IN_MONTH.
  destruct ((m =? 2) && is_leap y); [lia |].
  repeat case_match; lia.
Qed.

Lemma lit_append (c c' : ascii) (rest : string) :
  lit c c' (String c "" +:+ rest) = Some rest.
Proof.
  change (String c "" +:+ rest) with (String c rest).
  unfold lit. by rewrite Ascii.eqb_refl.
Qed.

Ltac next_directive :=
  cbn [mbind option_bind]; rewrite lit_append; cbn [mbind option_bind].

(** [strptime] accepts every timestamp in the format, and reads its
    fields. *)
Lemma strptime_utc_string (y m d hh mm ss : Z) (frac : string) :
  civil y m d hh mm ss → fraction frac →
  ∃ us, strptime (SStr (utc_string y m d hh mm ss frac))
        = Some (DT y m d hh mm ss us)
        ∧ 0 <= us <= 999999.
Proof.
  intros Hc Hf.
  pose proof Hc as (Hy & Hm & Hd & Hh & Hmi & Hs).
  pose proof (days_in_month_le y m).
  destruct (dir_f_fraction frac "" Hf) as (us & Hus & Hr).
  exists us. split; [|done].
  unfold strptime, utc_string.
  rewrite dir_Y_fmt4 by lia. next_directive.
  rewrite dir_m_fmt2 by lia. next_directive.
  rewrite dir_d_fmt2 by lia. next_directive.
  rewrite dir_H_fmt2 by lia. next_directive.
  rewrite dir_M_fmt2 by lia. next_directive.
  rewrite dir_S_fmt2 by lia. next_directive.
  rewrite Hus. cbn [mbind option_bind]. by apply make_civil.
Qed.

End Strptime.

(** ** Shifting a time by a zone offset *)

Section Fromutc.

Lemma days_before_month_bounds (y m : Z) :
  1 <= m <= 12 → 0 <= days_before_month y m <= 335.
Proof.
  intros Hm. unfold days_before_month, DAYS_BEFORE_MONTH.
  assert (m = 1 ∨ m = 2 ∨ m = 3 ∨ m = 4 ∨ m = 5 ∨ m = 6 ∨ m = 7 ∨ m = 8
          ∨ m = 9 ∨ m = 10 ∨ m = 11 ∨ m = 12)
    as [-> | [-> | [-> | [-> | [-> | [-> | [-> | [-> | [-> | [-> | [-> | ->]]]]]]]]]]]
    by lia;
    simpl; destruct (is_leap y); simpl; lia.
Qed.

Lemma ymd2ord_bounds (y m d : Z) :
  2 <= y <= 9998 → 1 <= m <= 12 → 1 <= d <= 31 →
  366 <= ymd2ord y m d <= 3651695.
Proof.
  intros Hy Hm Hd. pose proof (days_before_month_bounds y m Hm).
  unfold ymd2ord, days_before_year in *.
  Z.to_euclidean_division_equations; lia.
Qed.

Lemma add_seconds_total (dt : datetime) (off : Z) :
  civil (year dt) (month dt) (day dt) (hour dt) (minute dt) (second dt) →
  2 <= year dt <= 9998 →
  -86400 < off < 86400 →
  is_Some (add_seconds dt off).
Proof.
  intros (Hy & Hm & Hd & Hh & Hmi & Hs) Hy' Hoff.
  pose proof (days_in_month_le (year dt) (month dt)).
  pose proof (ymd2ord_bounds (year dt) (month dt) (day dt) Hy' Hm ltac:(lia)).
  unfold add_seconds, toordinal, MAXORDINAL.
  set (total := hour dt * 3600 + minute dt * 60 + second dt + off).
  assert (-1 <= total / 86400 <= 1)
    by (subst total; Z.to_euclidean_division_equations; lia).
  destruct (Z.ltb_spec 0 (ymd2ord (year dt) (month dt) (day dt) + total / 86400));
    [|lia].
  destruct (Z.leb_spec (ymd2ord (year dt) (month dt) (day dt) + total / 86400)
                       3652059); [|lia].
  simpl. by destruct (ord2ymd _) as [[? ?] ?].
Qed.

Lemma bisect_right_le (tz : tzinfo) (dt : datetime) :
  (bisect_right tz dt <= length tz)%nat.
Proof.
  induction tz as [|[t off] tz IH]; simpl; [lia |].
  destruct (Datetime.key t <=? Datetime.key dt); simpl; lia.
Qed.

Lemma fromutc_total (tz : tzinfo) (dt : datetime) :
  wf_tzinfo tz →
  civil (year dt) (month dt) (day dt) (hour dt) (minute dt) (second dt) →
  2 <= year dt <= 9998 →
  is_Some (fromutc tz dt).
Proof.
  intros [Hne Hoff] Hc Hy. unfold fromutc.
  pose proof (bisect_right_le tz dt) as Hb.
  cbv zeta. set (idx := Nat.max 0 (bisect_right tz dt - 1)).
  destruct (lookup_lt_is_Some_2 tz idx) as [inf Hinf].
  { destruct tz; [done |]. simpl in *. lia. }
  rewrite Hinf. simpl. apply add_seconds_total; [done | done |].
  rewrite Forall_forall in Hoff. apply Hoff.
  by apply list_elem_of_lookup_2 in Hinf.
Qed.

Lemma utc_string_truthy (y m d hh mm ss : Z) (frac : string) :
  Py.truthy (SStr (utc_string y m d hh mm ss frac)) = true.
Proof. reflexivity. Qed.

(** [convert_tz] returns on every timestamp of the catalog. *)
Lemma convert_tz_total (tz : tzinfo) (v : scalar) :
  wf_tzinfo tz → wf_timestamp v →
  ∃ v', convert_tz tz v = Some v'.
Proof.
  intros Htz [Hv | (y & m & d & hh & mm & ss & frac & -> & Hc & Hy & Hf)];
    unfold convert_tz.
  - rewrite Hv. simpl. eauto.
  - rewrite utc_string_truthy. cbn [negb].
    destruct (strptime_utc_string y m d hh mm ss frac Hc Hf) as (us & -> & _).
    cbn [mbind option_bind].
    destruct (fromutc_total tz (DT y m d hh mm ss us) Htz Hc Hy) as [loc ->].
    cbn [mbind option_bind]. eauto.
Qed.

Lemma convert_tz_falsy (tz : tzinfo) (v : scalar) :
  Py.truthy v = false → convert_tz tz v = Some SNone.
Proof. intros H. unfold convert_tz. by rewrite H. Qed.

End Fromutc.

(** ** Flattening a row *)

Ltac bind_inv H :=
  match type of H with
  | mbind _ ?m = Some _ =>
      let E := fresh "E" in
      destruct m eqn:E; cbn [mbind option_bind] in H; [|discriminate H]
  end.

Section Metadata.

Lemma add_metadata_snoc (items : list kv) (item : kv) (m : dict) :
  add_metadata (items ++ [item]) m
  = <[kv_key item := kv_value item]> (add_metadata items m).
Proof. unfold add_metadata. by rewrite foldl_app. Qed.

(** A key that the list binds to one value is bound to it afterwards. *)
Lemma add_metadata_bound (items : list kv) (m : dict) (k : string) (v : scalar) :
  KV k v ∈ items →
  (∀ item, item ∈ items → kv_key item = k → kv_value item = v) →
  add_metadata items m !! k = Some v.
Proof.
  induction items as [|item items IH] using rev_ind; intros Hin Hfun.
  - by apply elem_of_nil in Hin.
  - rewrite add_metadata_snoc.
    destruct (decide (kv_key item = k)) as [Hk | Hk].
    + rewrite <- (Hfun item); [by rewrite <- Hk, lookup_insert_eq | | done].
      apply elem_of_app. right. by apply list_elem_of_singleton.
    + rewrite lookup_insert_ne by done. apply IH.
      * apply elem_of_app in Hin as [Hin | Hin%list_elem_of_singleton]; [done |].
        subst item. by simpl in Hk.
      * intros item' Hin'. apply Hfun, elem_of_app. by left.
Qed.

(** A key that the list does not bind keeps its entry. *)
Lemma add_metadata_unbound (items : list kv) (m : dict) (k : string) :
  (∀ item, item ∈ items → kv_key item ≠ k) →
  add_metadata items m !! k = m !! k.
Proof.
  induction items as [|item items IH] using rev_ind; intros Hnone; [done |].
  rewrite add_metadata_snoc, lookup_insert_ne.
  - apply IH. intros item' Hin'. apply Hnone, elem_of_app. by left.
  - apply Hnone, elem_of_app. right. by apply list_elem_of_singleton.
Qed.

Lemma copy_fields_unfold (md out : dict) :
  copy_fields md out
  = foldl (fun out fn => <[fn.2 := default (SStr "") (md !! fn.1)]> out)
          out fields.
Proof. unfold copy_fields, fields. simpl. by repeat case_match. Qed.

Lemma copy_fields_lookup (md out : dict) (field name : string) :
  (field, name) ∈ fields →
  copy_fields md out !! name = Some (default (SStr "") (md !! field)).
Proof.
  rewrite copy_fields_unfold. unfold fields. simpl.
  rewrite !elem_of_cons, elem_of_nil.
  intros [[= -> ->] | [[= -> ->] | [[= -> ->] | [[= -> ->] | [[= -> ->]
          | [[= -> ->] | [[= -> ->] | []]]]]]]];
    by repeat (rewrite lookup_insert_eq || rewrite lookup_insert_ne by done).
Qed.

Lemma copy_fields_lookup_other (md out : dict) (k : string) :
  k ∉ (snd <$> fields) →
  copy_fields md out !! k = out !! k.
Proof.
  rewrite copy_fields_unfold. unfold fields. simpl.
  rewrite !not_elem_of_cons. intros (? & ? & ? & ? & ? & ? & ? & _).
  by rewrite !lookup_insert_ne by done.
Qed.

Lemma copy_fields_dom (md out : dict) :
  dom (copy_fields md out) = dom out ∪ list_to_set (snd <$> fields).
Proof.
  rewrite copy_fields_unfold. unfold fields. simpl.
  rewrite !dom_insert_L. simpl.
  apply set_eq. intros x.
  rewrite !elem_of_union, !elem_of_singleton, elem_of_empty. tauto.
Qed.

End Metadata.

Section Project.

Lemma project_lookup (keys : list string) (d g : dict) (k : string) :
  project keys d = Some g →
  g !! k = if decide (k ∈ keys) then d !! k else None.
Proof.
  revert g. induction keys as [|key keys IH]; intros g H; simpl in H.
  - injection H as <-. rewrite lookup_empty.
    by destruct (decide (k ∈ [])) as [?%elem_of_nil|].
  - do 2 bind_inv H. injection H as <-.
    destruct (decide (key = k)) as [-> | Hne].
    + rewrite lookup_insert_eq. rewrite decide_True; [done |].
      apply elem_of_cons. by left.
    + rewrite lookup_insert_ne by done. rewrite (IH _ eq_refl).
      destruct (decide (k ∈ keys)) as [Hin | Hin].
      * rewrite decide_True; [done |]. apply elem_of_cons. by right.
      * rewrite decide_False; [done |].
        intros [? | ?]%elem_of_cons; congruence.
Qed.

Lemma project_dom (keys : list string) (d g : dict) :
  project keys d = Some g → dom g = list_to_set keys.
Proof.
  revert g. induction keys as [|key keys IH]; intros g H; simpl in H.
  - injection H as <-. by rewrite dom_empty_L.
  - do 2 bind_inv H. injection H as <-.
    rewrite dom_insert_L, (IH _ eq_refl). done.
Qed.

Lemma project_total (keys : list string) (d : dict) :
  (∀ k, k ∈ keys → is_Some (d !! k)) → is_Some (project keys d).
Proof.
  induction keys as [|key keys IH]; intros H; simpl; [done |].
  destruct (H key) as [v ->]; [by left |]. simpl.
  destruct IH as [g ->]; [|done].
  intros k Hk. apply H. by right.
Qed.

End Project.

Section Flatten.

Variable tz : tzinfo.

Ltac elem_of_list :=
  repeat first [apply list_elem_of_here | apply list_elem_of_further].

Lemma store_page_view_inv (key : string) (row a : asset) :
  store_page_view key row = Some a →
  ∃ v, page_views row !! key = Some v
       ∧ a = set_resource (<[key := v]> (resource row)) row.
Proof.
  unfold store_page_view. intros H. bind_inv H. injection H as <-. eauto.
Qed.

Lemma convert_field_inv (key : string) (d d' : dict) :
  convert_field tz key d = Some d' →
  ∃ v t, d !! key = Some v ∧ convert_tz tz v = Some t ∧ d' = <[key := t]> d.
Proof.
  unfold convert_field. intros H. do 2 bind_inv H. injection H as <-. eauto.
Qed.

Lemma project_out_field (d g : dict) (k : string) :
  project OUT_FIELDS d = Some g → k ∈ OUT_FIELDS → g !! k = d !! k.
Proof.
  intros Hg Hk. rewrite (project_lookup _ _ _ k Hg). by rewrite decide_True.
Qed.

(** What a successful run of [flatten] read and what it built. *)
Lemma flatten_inv (row : asset) (out : dict) :
  flatten tz row = Some out →
  ∃ g pub id url v1 v2 v3 v4 v5 t1 t2 t3 t4 t5,
    project OUT_FIELDS (resource row) = Some g
    ∧ is_public row = Some pub
    ∧ resource row !! "id" = Some id
    ∧ Py.str_add (if pub then BASE_URL else EDP_URL) id = Some url
    ∧ resource row !! "updatedAt" = Some v1 ∧ convert_tz tz v1 = Some t1
    ∧ resource row !! "createdAt" = Some v2 ∧ convert_tz tz v2 = Some t2
    ∧ resource row !! "metadata_updated_at" = Some v3 ∧ convert_tz tz v3 = Some t3
    ∧ resource row !! "data_updated_at" = Some v4 ∧ convert_tz tz v4 = Some t4
    ∧ resource row !! "publication_date" = Some v5 ∧ convert_tz tz v5 = Some t5
    ∧ out = copy_fields (merged_metadata (asset_classification row))
              (<["tags" := SStr (tags_of (asset_classification row))]>
               (<["owner_display_name" := display_name (asset_owner row)]>
                (<["publication_date" := t5]>
                 (<["data_updated_at" := t4]>
                  (<["metadata_updated_at" := t3]>
                   (<["createdAt" := t2]>
                    (<["updatedAt" := t1]>
                     (<["is_public" := SBool pub]>
                      (<["dataset_url" := SStr url]> g))))))))).
Proof.
  unfold flatten. intros H. do 4 bind_inv H. cbv zeta in H.
  apply bind_Some in H as (d1 & (v1 & t1 & Hv1 & Ht1 & ->)%convert_field_inv & H).
  apply bind_Some in H as (d2 & (v2 & t2 & Hv2 & Ht2 & ->)%convert_field_inv & H).
  apply bind_Some in H as (d3 & (v3 & t3 & Hv3 & Ht3 & ->)%convert_field_inv & H).
  apply bind_Some in H as (d4 & (v4 & t4 & Hv4 & Ht4 & ->)%convert_field_inv & H).
  apply bind_Some in H as (d5 & (v5 & t5 & Hv5 & Ht5 & ->)%convert_field_inv & H).
  injection H as <-.
  rewrite !lookup_insert_ne in Hv1 by done.
  rewrite !lookup_insert_ne in Hv2 by done.
  rewrite !lookup_insert_ne in Hv3 by done.
  rewrite !lookup_insert_ne in Hv4 by done.
  rewrite !lookup_insert_ne in Hv5 by done.
  rewrite (project_out_field _ _ _ E) in Hv1 by elem_of_list.
  rewrite (project_out_field _ _ _ E) in Hv2 by elem_of_list.
  rewrite (project_out_field _ _ _ E) in Hv3 by elem_of_list.
  rewrite (project_out_field _ _ _ E) in Hv4 by elem_of_list.
  rewrite (project_out_field _ _ _ E) in Hv5 by elem_of_list.
  rewrite (project_out_field _ _ _ E) in E1 by elem_of_list.
  by exists g, b, s, s0, v1, v2, v3, v4, v5, t1, t2, t3, t4, t5.
Qed.

Lemma convert_field_total (key : string) (d : dict) (v : scalar) :
  wf_tzinfo tz → d !! key = Some v → wf_timestamp v →
  ∃ t, convert_tz tz v = Some t ∧ convert_field tz key d = Some (<[key := t]> d).
Proof.
  intros Htz Hv Hwf. destruct (convert_tz_total tz v Htz Hwf) as [t Ht].
  exists t. split; [done |]. unfold convert_field. rewrite Hv. simpl.
  by rewrite Ht.
Qed.

End Flatten.

Section TransformRow.

Variable tz : tzinfo.

Ltac elem_of_list :=
  repeat first [apply list_elem_of_here | apply list_elem_of_further].

Lemma set_resource_id (row : asset) : set_resource (resource row) row = row.
Proof. by destruct row. Qed.

(** The three assignments succeed exactly when the three counts are
    there, and leave them in the resource of the row. *)
Lemma store_page_views_inv (row row' : asset) :
  store_page_views row = Some row' →
  (∀ k, k ∈ PAGE_VIEW_FIELDS → is_Some (page_views row !! k))
  ∧ row' = set_resource (with_page_views row) row.
Proof.
  unfold store_page_views. intros H.
  apply bind_Some in H as (a1 & (v1 & Hv1 & ->)%store_page_view_inv & H).
  apply bind_Some in H as (a2 & (v2 & Hv2 & ->)%store_page_view_inv & H).
  apply store_page_view_inv in H as (v3 & Hv3 & ->).
  simpl in *. split.
  - unfold PAGE_VIEW_FIELDS. intros k.
    rewrite !elem_of_cons, elem_of_nil. intros [-> | [-> | [-> | []]]]; eauto.
  - unfold with_page_views, PAGE_VIEW_FIELDS. simpl.
    by rewrite Hv1, Hv2, Hv3.
Qed.

Lemma store_page_views_total (row : asset) :
  (∀ k, k ∈ PAGE_VIEW_FIELDS → is_Some (page_views row !! k)) →
  store_page_views row = Some (set_resource (with_page_views row) row).
Proof.
  intros H.
  destruct (H "page_views_last_week") as [v1 Hv1]; [elem_of_list |].
  destruct (H "page_views_last_month") as [v2 Hv2]; [elem_of_list |].
  destruct (H "page_views_total") as [v3 Hv3]; [elem_of_list |].
  unfold store_page_views, store_page_view, with_page_views, PAGE_VIEW_FIELDS.
  simpl. rewrite Hv1. simpl. rewrite Hv2. simpl. by rewrite Hv3.
Qed.

(** Keys other than the three counts are read as before. *)
Lemma with_page_views_other (row : asset) (k : string) :
  k ∉ PAGE_VIEW_FIELDS → with_page_views row !! k = resource row !! k.
Proof.
  unfold with_page_views, PAGE_VIEW_FIELDS. simpl.
  rewrite !not_elem_of_cons. intros (? & ? & ? & _).
  repeat case_match; by rewrite ?lookup_insert_ne by done.
Qed.

Lemma with_page_views_count (row : asset) (k : string) :
  k ∈ PAGE_VIEW_FIELDS → is_Some (page_views row !! k) →
  with_page_views row !! k = page_views row !! k.
Proof.
  unfold with_page_views, PAGE_VIEW_FIELDS. simpl.
  rewrite !elem_of_cons, elem_of_nil.
  intros [-> | [-> | [-> | []]]] [v Hv];
    repeat case_match;
    rewrite ?lookup_insert_eq; rewrite ?lookup_insert_ne by done;
    rewrite ?lookup_insert_eq; rewrite ?lookup_insert_ne by done;
    rewrite ?lookup_insert_eq; congruence.
Qed.

(** Running the assignments on their own result changes nothing. *)
Lemma store_page_views_again (row row' : asset) :
  store_page_views row = Some row' → store_page_views row' = Some row'.
Proof.
  intros H. pose proof H as [Hpv ->]%store_page_views_inv.
  rewrite store_page_views_total by done. f_equal.
  set (row' := set_resource (with_page_views row) row).
  replace (with_page_views row') with (resource row');
    [apply set_resource_id |].
  destruct (Hpv "page_views_last_week") as [v1 Hv1]; [elem_of_list |].
  destruct (Hpv "page_views_last_month") as [v2 Hv2]; [elem_of_list |].
  destruct (Hpv "page_views_total") as [v3 Hv3]; [elem_of_list |].
  subst row'. unfold with_page_views, PAGE_VIEW_FIELDS. simpl.
  rewrite Hv1, Hv2, Hv3.
  apply map_eq. intros k.
  destruct (decide (k = "page_views_total")) as [-> | ?];
    [by rewrite !lookup_insert_eq |].
  destruct (decide (k = "page_views_last_month")) as [-> | ?];
    [by repeat (rewrite lookup_insert_eq || rewrite lookup_insert_ne by done) |].
  destruct (decide (k = "page_views_last_week")) as [-> | ?];
    [by repeat (rewrite lookup_insert_eq || rewrite lookup_insert_ne by done) |].
  by rewrite !lookup_insert_ne by done.
Qed.

Lemma transform_row_inv (row row' : asset) (out : dict) :
  transform_row tz row = Some (row', out) →
  store_page_views row = Some row' ∧ flatten tz row' = Some out.
Proof.
  unfold transform_row. intros H. do 2 bind_inv H. by injection H as <- <-.
Qed.

Lemma transform_row_intro (row row' : asset) (out : dict) :
  store_page_views row = Some row' → flatten tz row' = Some out →
  transform_row tz row = Some (row', out).
Proof. unfold transform_row. intros -> H. simpl. by rewrite H. Qed.

(** [flatten] from what it reads. *)
Lemma flatten_intro (row : asset) (g : dict) (pub : bool) (id : scalar)
      (url : string) (v1 v2 v3 v4 v5 t1 t2 t3 t4 t5 : scalar) :
  project OUT_FIELDS (resource row) = Some g →
  is_public row = Some pub →
  resource row !! "id" = Some id →
  Py.str_add (if pub then BASE_URL else EDP_URL) id = Some url →
  resource row !! "updatedAt" = Some v1 → convert_tz tz v1 = Some t1 →
  resource row !! "createdAt" = Some v2 → convert_tz tz v2 = Some t2 →
  resource row !! "metadata_updated_at" = Some v3 → convert_tz tz v3 = Some t3 →
  resource row !! "data_updated_at" = Some v4 → convert_tz tz v4 = Some t4 →
  resource row !! "publication_date" = Some v5 → convert_tz tz v5 = Some t5 →
  flatten tz row
  = Some (copy_fields (merged_metadata (asset_classification row))
            (<["tags" := SStr (tags_of (asset_classification row))]>
             (<["owner_display_name" := display_name (asset_owner row)]>
              (<["publication_date" := t5]>
               (<["data_updated_at" := t4]>
                (<["metadata_updated_at" := t3]>
                 (<["createdAt" := t2]>
                  (<["updatedAt" := t1]>
                   (<["is_public" := SBool pub]>
                    (<["dataset_url" := SStr url]> g)))))))))).
Proof.
  intros Hg Hpub Hid Hurl Hv1 Ht1 Hv2 Ht2 Hv3 Ht3 Hv4 Ht4 Hv5 Ht5.
  rewrite <- (project_out_field _ _ _ Hg) in Hid by elem_of_list.
  rewrite <- (project_out_field _ _ _ Hg) in Hv1 by elem_of_list.
  rewrite <- (project_out_field _ _ _ Hg) in Hv2 by elem_of_list.
  rewrite <- (project_out_field _ _ _ Hg) in Hv3 by elem_of_list.
  rewrite <- (project_out_field _ _ _ Hg) in Hv4 by elem_of_list.
  rewrite <- (project_out_field _ _ _ Hg) in Hv5 by elem_of_list.
  unfold flatten. rewrite Hg. cbn [mbind option_bind].
  rewrite Hpub. cbn [mbind option_bind].
  rewrite Hid. cbn [mbind option_bind].
  rewrite Hurl. cbn [mbind option_bind]. cbv zeta.
  unfold convert_field.
  rewrite !lookup_insert_ne by done. rewrite Hv1. cbn [mbind option_bind].
  rewrite Ht1. cbn [mbind option_bind].
  rewrite !lookup_insert_ne by done. rewrite Hv2. cbn [mbind option_bind].
  rewrite Ht2. cbn [mbind option_bind].
  rewrite !lookup_insert_ne by done. rewrite Hv3. cbn [mbind option_bind].
  rewrite Ht3. cbn [mbind option_bind].
  rewrite !lookup_insert_ne by done. rewrite Hv4. cbn [mbind option_bind].
  rewrite Ht4. cbn [mbind option_bind].
  rewrite !lookup_insert_ne by done. rewrite Hv5. cbn [mbind option_bind].
  rewrite Ht5. cbn [mbind option_bind]. done.
Qed.

End TransformRow.

(** ** Examples of rows *)

(** The asset of the scenario in the design, as [extract] returns it,
    with a private entry for the department name, a number among its
    tags and no date of a data update. *)
Definition scenario_asset : asset :=
  Asset
    (list_to_map
       [ ("id", SStr "abcd-1234"); ("name", SStr "Traffic counts");
         ("description", SStr ""); ("attribution", SNone);
         ("type", SStr "dataset");
         ("updatedAt", SStr "2023-03-12T07:00:00.000Z");
         ("createdAt", SStr "2020-11-01T06:59:59.000Z");
         ("metadata_updated_at", SStr "2023-03-12T08:00:00.000Z");
         ("data_updated_at", SNone);
         ("publication_date", SStr "2020-11-01T07:00:00.000Z");
         ("download_count", SInt 12) ])
    (list_to_map
       [ ("page_views_last_week", SInt 3); ("page_views_last_month", SInt 14);
         ("page_views_total", SInt 159) ])
    (Classification
       (Some (SStr CATEGORY))
       (Some [SStr "traffic"; SInt 2023])
       [KV "Ownership_Department-name" (SStr "DTS")]
       (Some [KV "Ownership_Department-name" (SStr "Records");
              KV "Ownership_Program-Name" (SStr "Data")]))
    (Owner (SStr ATD_USER_ID) (SStr "DTS"))
    (Some false).

(** The row and the record that [transform_row] leaves for it. *)
Definition scenario_row : asset :=
  set_resource (with_page_views scenario_asset) scenario_asset.

Definition scenario_record : dict :=
  list_to_map
    [ ("id", SStr "abcd-1234"); ("name", SStr "Traffic counts");
      ("description", SStr ""); ("attribution", SNone);
      ("type", SStr "dataset");
      ("updatedAt", SStr "2023-03-12T01:00:00");
      ("createdAt", SStr "2020-11-01T01:59:59");
      ("metadata_updated_at", SStr "2023-03-12T03:00:00");
      ("data_updated_at", SNone);
      ("publication_date", SStr "2020-11-01T01:00:00");
      ("download_count", SInt 12);
      ("page_views_last_week", SInt 3); ("page_views_last_month", SInt 14);
      ("page_views_total", SInt 159);
      ("dataset_url", SStr "https://datahub.austintexas.gov/d/abcd-1234");
      ("is_public", SBool false);
      ("owner_display_name", SStr "DTS");
      ("tags", SStr "traffic, 2023");
      ("automation_method", SStr "");
      ("automation_method_other", SStr "");
      ("update_frequency", SStr "");
      ("spatial_information", SStr "");
      ("department_name", SStr "DTS");
      ("program_name", SStr "Data");
      ("strategic_area", SStr "") ].

Example transform_row_scenario :
  transform_row US_Central scenario_asset = Some (scenario_row, scenario_record).
Proof. vm_compute. reflexivity. Qed.

(** ** Properties of the flattened record *)

Section Flattened.

Variable tz : tzinfo.

Ltac elem_of_list :=
  repeat first [apply list_elem_of_here | apply list_elem_of_further].

(** The record in terms of the row that [transform_row] was given. *)
Lemma transform_row_record (row row' : asset) (out : dict) :
  transform_row tz row = Some (row', out) →
  row' = set_resource (with_page_views row) row
  ∧ ∃ g pub url t1 t2 t3 t4 t5,
      dom g = list_to_set OUT_FIELDS
      ∧ is_public row = Some pub
      ∧ (∀ k v, k ∈ TIME_FIELDS → resource row !! k = Some v →
                convert_tz tz v
                = (<["publication_date" := t5]>
                    (<["data_updated_at" := t4]>
                     (<["metadata_updated_at" := t3]>
                      (<["createdAt" := t2]>
                       (<["updatedAt" := t1]> (∅ : dict)))))) !! k)
      ∧ out = copy_fields (merged_metadata (asset_classification row))
                (<["tags" := SStr (tags_of (asset_classification row))]>
                 (<["owner_display_name" := display_name (asset_owner row)]>
                  (<["publication_date" := t5]>
                   (<["data_updated_at" := t4]>
                    (<["metadata_updated_at" := t3]>
                     (<["createdAt" := t2]>
                      (<["updatedAt" := t1]>
                       (<["is_public" := SBool pub]>
                        (<["dataset_url" := SStr url]> g))))))))).
Proof.
  intros [Hst Hfl]%transform_row_inv.
  apply store_page_views_inv in Hst as [_ ->]. split; [done |].
  apply flatten_inv in Hfl
    as (g & pub & id & url & v1 & v2 & v3 & v4 & v5 & t1 & t2 & t3 & t4 & t5
        & Hg & Hpub & Hid & Hurl & Hv1 & Ht1 & Hv2 & Ht2 & Hv3 & Ht3
        & Hv4 & Ht4 & Hv5 & Ht5 & ->).
  unfold set_resource in *.
  cbn [resource is_public asset_classification asset_owner page_views] in *.
  assert (∀ k, k ∈ TIME_FIELDS → k ∉ PAGE_VIEW_FIELDS) as Hother.
  { intros k Hk Hpv. unfold TIME_FIELDS, PAGE_VIEW_FIELDS in *.
    rewrite !elem_of_cons in Hk. rewrite !elem_of_cons in Hpv.
    destruct Hk as [-> | [-> | [-> | [-> | [-> | Hk]]]]];
      try (by apply elem_of_nil in Hk);
      destruct Hpv as [? | [? | [? | Hpv]]];
      try discriminate; by apply elem_of_nil in Hpv. }
  rewrite with_page_views_other in Hv1 by (apply Hother; elem_of_list).
  rewrite with_page_views_other in Hv2 by (apply Hother; elem_of_list).
  rewrite with_page_views_other in Hv3 by (apply Hother; elem_of_list).
  rewrite with_page_views_other in Hv4 by (apply Hother; elem_of_list).
  rewrite with_page_views_other in Hv5 by (apply Hother; elem_of_list).
  exists g, pub, url, t1, t2, t3, t4, t5.
  split; [by apply project_dom in Hg |]. split; [done |]. split; [|done].
  intros k v. unfold TIME_FIELDS. rewrite !elem_of_cons, elem_of_nil.
  intros [-> | [-> | [-> | [-> | [-> | []]]]]] Hk;
    repeat (rewrite lookup_insert_eq || rewrite lookup_insert_ne by done);
    congruence.
Qed.

(** The value of a publishing field: the entry of the merged metadata,
    or the empty string. *)
Lemma transform_row_field (row row' : asset) (out : dict) (field name : string) :
  transform_row tz row = Some (row', out) →
  (field, name) ∈ fields →
  out !! name
  = Some (default (SStr "")
            (merged_metadata (asset_classification row) !! field)).
Proof.
  intros (_ & g & pub & url & t1 & t2 & t3 & t4 & t5 & _ & _ & _ & ->)
         %transform_row_record Hf.
  by apply copy_fields_lookup.
Qed.

(** C3. When a publishing key has an entry in [domain_metadata] and an
    entry with another value in [domain_private_metadata], the record
    holds the value of [domain_metadata] under the name of the key. *)
Theorem metadata_precedence
    (row row' : asset) (out : dict) (field name : string)
    (private : list kv) (v w : scalar) :
  transform_row tz row = Some (row', out) →
  (field, name) ∈ fields →
  domain_private_metadata (asset_classification row) = Some private →
  KV field w ∈ private →
  KV field v ∈ domain_metadata (asset_classification row) →
  (∀ item, item ∈ domain_metadata (asset_classification row) →
           kv_key item = field → kv_value item = v) →
  w ≠ v →
  out !! name = Some v ∧ out !! name ≠ Some w.
Proof.
  intros Hrow Hf Hpriv Hw Hv Hfun Hne.
  rewrite (transform_row_field _ _ _ _ _ Hrow Hf).
  unfold merged_metadata.
  rewrite (add_metadata_bound _ _ field v Hv Hfun). simpl.
  split; congruence.
Qed.

(** C10. The [tags] of the record are a string: the [str] of the
    elements of [domain_tags] joined with a comma and a space, the empty
    string without [domain_tags]. Whatever the tags of a row are, a row
    that [transform_row] accepts is accepted with them. *)
Theorem tags_are_joined_strings (row row' : asset) (out : dict) :
  transform_row tz row = Some (row', out) →
  out !! "tags"
  = Some (SStr match domain_tags (asset_classification row) with
               | Some tags => Py.join ", " (Py.str <$> tags)
               | None => ""
               end)
  ∧ ∀ tags : option (list scalar),
      let c := asset_classification row in
      is_Some (transform_row tz
                 (Asset (resource row) (page_views row)
                        (Classification (domain_category c) tags
                           (domain_metadata c) (domain_private_metadata c))
                        (asset_owner row) (is_public row))).
Proof.
  intros Hrow. split.
  - apply transform_row_record in Hrow
      as (_ & g & pub & url & t1 & t2 & t3 & t4 & t5 & _ & _ & _ & ->).
    rewrite copy_fields_lookup_other, lookup_insert_eq; [done |].
    apply (bool_decide_unpack _). by vm_compute.
  - intros tags c.
    apply transform_row_inv in Hrow as [Hst Hfl].
    pose proof Hst as [Hpv ->]%store_page_views_inv.
    apply flatten_inv in Hfl
      as (g & pub & id & url & v1 & v2 & v3 & v4 & v5 & t1 & t2 & t3 & t4 & t5
          & Hg & Hpub & Hid & Hurl & Hv1 & Ht1 & Hv2 & Ht2 & Hv3 & Ht3
          & Hv4 & Ht4 & Hv5 & Ht5 & _).
    eexists. apply transform_row_intro.
    + by apply store_page_views_total.
    + by eapply (flatten_intro tz _ g pub id url v1 v2 v3 v4 v5 t1 t2 t3 t4 t5).
Qed.

End Flattened.

Lemma metadata_precedence_witness :
  scenario_record !! "department_name" = Some (SStr "DTS")
  ∧ scenario_record !! "department_name" ≠ Some (SStr "Records").
Proof.
  apply (metadata_precedence US_Central scenario_asset scenario_row
           scenario_record "Ownership_Department-name" "department_name"
           [KV "Ownership_Department-name" (SStr "Records");
            KV "Ownership_Program-Name" (SStr "Data")]
           (SStr "DTS") (SStr "Records")).
  - vm_compute. reflexivity.
  - repeat first [apply list_elem_of_here | apply list_elem_of_further].
  - reflexivity.
  - apply list_elem_of_here.
  - apply list_elem_of_here.
  - intros item Hin _. simpl in Hin.
    apply elem_of_cons in Hin as [-> | Hin]; [reflexivity |].
    by apply elem_of_nil in Hin.
  - discriminate.
Defined.

Lemma tags_are_joined_strings_witness :
  scenario_record !! "tags" = Some (SStr "traffic, 2023").
Proof.
  apply (tags_are_joined_strings US_Central scenario_asset scenario_row
           scenario_record).
  vm_compute. reflexivity.
Defined.

Example str_of_tags :
  Py.str <$> [SStr "a"; SInt 5; SInt (-3); SBool true; SNone]
  = ["a"; "5"; "-3"; "True"; "None"].
Proof. vm_compute. reflexivity. Qed.

(** ** The schema of the record *)

Section Schema.

Variable tz : tzinfo.

Ltac elem_of_list :=
  repeat first [apply list_elem_of_here | apply list_elem_of_further].

Ltac closed_decision := apply (bool_decide_unpack _); by vm_compute.

Lemma merged_metadata_unbound (c : classification) (field : string) :
  (∀ item, item ∈ domain_metadata c → kv_key item ≠ field) →
  (∀ private, domain_private_metadata c = Some private →
              ∀ item, item ∈ private → kv_key item ≠ field) →
  merged_metadata c !! field = None.
Proof.
  intros Hmd Hpmd. unfold merged_metadata.
  rewrite add_metadata_unbound by done.
  destruct (domain_private_metadata c) as [private|]; [|done].
  rewrite add_metadata_unbound; [done |]. by apply Hpmd.
Qed.

(** C5, as the code has it. A record that [transform_row] builds has
    exactly the keys of the schema. Its [tags] and its publishing fields
    hold the empty string when the row has no tags or no metadata entry
    for the field. A timestamp that is null or empty in the row is null
    in the record. *)
Theorem record_has_every_key (row row' : asset) (out : dict) :
  transform_row tz row = Some (row', out) →
  dom out = list_to_set OUT_SCHEMA
  ∧ (∀ k, k ∈ OUT_SCHEMA → is_Some (out !! k))
  ∧ (domain_tags (asset_classification row) = None →
     out !! "tags" = Some (SStr ""))
  ∧ (∀ field name,
       (field, name) ∈ fields →
       (∀ item, item ∈ domain_metadata (asset_classification row) →
                kv_key item ≠ field) →
       (∀ private,
          domain_private_metadata (asset_classification row) = Some private →
          ∀ item, item ∈ private → kv_key item ≠ field) →
       out !! name = Some (SStr ""))
  ∧ (∀ k v, k ∈ TIME_FIELDS → resource row !! k = Some v →
            Py.truthy v = false → out !! k = Some SNone).
Proof.
  intros Hrow.
  assert (dom out = list_to_set OUT_SCHEMA) as Hdom.
  { apply transform_row_record in Hrow
      as (_ & g & pub & url & t1 & t2 & t3 & t4 & t5 & Hg & _ & _ & ->).
    rewrite copy_fields_dom, !dom_insert_L, Hg.
    unfold OUT_SCHEMA, OUT_FIELDS, fields. simpl.
    apply set_eq. intros x.
    rewrite !elem_of_union, !elem_of_singleton, elem_of_empty. tauto. }
  split; [done |]. split; [|split; [|split]].
  - intros k Hk. apply elem_of_dom. rewrite Hdom.
    by apply elem_of_list_to_set.
  - intros Htags.
    pose proof (tags_are_joined_strings tz row row' out Hrow) as [-> _].
    by rewrite Htags.
  - intros field name Hf Hmd Hpmd.
    rewrite (transform_row_field tz _ _ _ _ _ Hrow Hf).
    by rewrite merged_metadata_unbound.
  - intros k v Hk Hv Hfalsy.
    apply transform_row_record in Hrow
      as (_ & g & pub & url & t1 & t2 & t3 & t4 & t5 & _ & _ & Ht & ->).
    specialize (Ht k v Hk Hv). rewrite convert_tz_falsy in Ht by done.
    rewrite copy_fields_lookup_other.
    2:{ revert Hk. unfold TIME_FIELDS. rewrite !elem_of_cons.
        intros [-> | [-> | [-> | [-> | [-> | Hk]]]]];
          [closed_decision .. | by apply elem_of_nil in Hk]. }
    revert Hk Ht. unfold TIME_FIELDS. rewrite !elem_of_cons.
    intros [-> | [-> | [-> | [-> | [-> | Hk]]]]];
      [.. | by apply elem_of_nil in Hk];
      repeat (rewrite lookup_insert_eq || rewrite lookup_insert_ne by done);
      congruence.
Qed.

End Schema.

Lemma record_has_every_key_witness :
  dom scenario_record = list_to_set OUT_SCHEMA
  ∧ (∀ k, k ∈ OUT_SCHEMA → is_Some (scenario_record !! k))
  ∧ (domain_tags (asset_classification scenario_asset) = None →
     scenario_record !! "tags" = Some (SStr ""))
  ∧ (∀ field name,
       (field, name) ∈ fields →
       (∀ item, item ∈ domain_metadata (asset_classification scenario_asset) →
                kv_key item ≠ field) →
       (∀ private,
          domain_private_metadata (asset_classification scenario_asset)
          = Some private →
          ∀ item, item ∈ private → kv_key item ≠ field) →
       scenario_record !! name = Some (SStr ""))
  ∧ (∀ k v, k ∈ TIME_FIELDS → resource scenario_asset !! k = Some v →
            Py.truthy v = false → scenario_record !! k = Some SNone).
Proof.
  apply (record_has_every_key US_Central scenario_asset scenario_row
           scenario_record).
  vm_compute. reflexivity.
Defined.

(** C5, as the design states it, fails: a timestamp whose source value
    is null is null in the record, not the empty string. *)
Lemma null_timestamp_is_not_empty_string :
  ¬ (∀ (tz : tzinfo) (row row' : asset) (out : dict) (k : string),
       transform_row tz row = Some (row', out) →
       k ∈ OUT_SCHEMA →
       resource row !! k = Some SNone →
       out !! k = Some (SStr "")).
Proof.
  intros H.
  specialize (H US_Central scenario_asset scenario_row scenario_record
                "data_updated_at").
  assert (scenario_record !! "data_updated_at" = Some SNone) as Hnull
    by (vm_compute; reflexivity).
  rewrite Hnull in H. discriminate H.
  - vm_compute. reflexivity.
  - apply (bool_decide_unpack _). by vm_compute.
  - vm_compute. reflexivity.
Qed.

(** ** Running transform, and running it again *)

Section TransformTotal.

Variable tz : tzinfo.
Hypothesis tz_wf : wf_tzinfo tz.

Ltac elem_of_list :=
  repeat first [apply list_elem_of_here | apply list_elem_of_further].

Ltac closed_decision := apply (bool_decide_unpack _); by vm_compute.

Lemma flatten_total (row : asset) :
  wf_asset row → is_Some (flatten tz (set_resource (with_page_views row) row)).
Proof.
  intros (Hpv & Hres & [s Hid] & Htime & [pub Hpub]).
  assert (∀ k, k ∈ OUT_FIELDS → is_Some (with_page_views row !! k)) as Hkeys.
  { intros k Hk. destruct (decide (k ∈ PAGE_VIEW_FIELDS)) as [Hin | Hin].
    - rewrite with_page_views_count by auto. auto.
    - rewrite with_page_views_other by done. auto. }
  assert (∀ k, k ∈ TIME_FIELDS →
               ∃ v t, with_page_views row !! k = Some v
                      ∧ convert_tz tz v = Some t) as Hconv.
  { intros k Hk.
    assert (k ∈ OUT_FIELDS ∧ k ∉ PAGE_VIEW_FIELDS) as [Hout Hnpv].
    { revert Hk. unfold TIME_FIELDS. rewrite !elem_of_cons.
      intros [-> | [-> | [-> | [-> | [-> | Hk]]]]];
        [.. | by apply elem_of_nil in Hk]; split; closed_decision. }
    destruct (Hres k Hout Hnpv) as [v Hv].
    destruct (convert_tz_total tz v tz_wf (Htime k v Hk Hv)) as [t Ht].
    exists v, t. by rewrite with_page_views_other. }
  destruct (project_total OUT_FIELDS (with_page_views row) Hkeys) as [g Hg].
  destruct (Hconv "updatedAt") as (v1 & t1 & Hv1 & Ht1); [elem_of_list |].
  destruct (Hconv "createdAt") as (v2 & t2 & Hv2 & Ht2); [elem_of_list |].
  destruct (Hconv "metadata_updated_at") as (v3 & t3 & Hv3 & Ht3);
    [elem_of_list |].
  destruct (Hconv "data_updated_at") as (v4 & t4 & Hv4 & Ht4); [elem_of_list |].
  destruct (Hconv "publication_date") as (v5 & t5 & Hv5 & Ht5);
    [elem_of_list |].
  eexists.
  eapply (flatten_intro tz _ g pub (SStr s) _ v1 v2 v3 v4 v5 t1 t2 t3 t4 t5);
    try done.
  unfold set_resource. cbn [resource].
  rewrite with_page_views_other; [done | closed_decision].
Qed.

Lemma transform_row_total (row : asset) :
  wf_asset row →
  ∃ out, transform_row tz row
         = Some (set_resource (with_page_views row) row, out).
Proof.
  intros Hwf. destruct (flatten_total row Hwf) as [out Hout].
  exists out. apply transform_row_intro; [|done].
  apply store_page_views_total. apply Hwf.
Qed.

Lemma transform_row_again (row row' : asset) (out : dict) :
  transform_row tz row = Some (row', out) →
  transform_row tz row' = Some (row', out).
Proof.
  intros [Hst Hfl]%transform_row_inv.
  apply transform_row_intro; [|done]. by eapply store_page_views_again.
Qed.

(** C8, as the code has it. On well-formed assets [transform] does not
    raise and returns one record for each asset. It writes into its
    input: each row is left with the three page view counts stored in
    its resource, and nothing else changed. Run again on the rows it
    left, it leaves them as they are and returns the same records. *)
Theorem transform_total_and_repeatable (data : list asset) :
  Forall wf_asset data →
  ∃ data' output_data,
    transform tz data = Some (data', output_data)
    ∧ length output_data = length data
    ∧ data' = (fun row => set_resource (with_page_views row) row) <$> data
    ∧ transform tz data' = Some (data', output_data).
Proof.
  induction 1 as [|row data Hrow _ (data' & outs & Hrun & Hlen & Hdata & Hrerun)].
  - by exists [], [].
  - destruct (transform_row_total row Hrow) as [out Hout].
    exists (set_resource (with_page_views row) row :: data'), (out :: outs).
    split; [simpl; rewrite Hout; simpl; by rewrite Hrun |].
    split; [simpl; congruence |].
    split; [by rewrite fmap_cons, <- Hdata |].
    simpl. rewrite (transform_row_again _ _ _ Hout). simpl. by rewrite Hrerun.
Qed.

End TransformTotal.

Lemma US_Central_wf : wf_tzinfo US_Central.
Proof.
  split; [done |].
  apply (bool_decide_unpack _). by vm_compute.
Qed.

Lemma scenario_asset_wf : wf_asset scenario_asset.
Proof.
  split; [|split; [|split; [|split]]].
  - intros k Hk%list_elem_of_In. simpl in Hk.
    destruct Hk as [<- | [<- | [<- | []]]]; by eexists.
  - intros k Hk%list_elem_of_In Hn. simpl in Hk.
    repeat (destruct Hk as [<- | Hk];
            [first [by eexists
                   | exfalso; apply Hn, (bool_decide_unpack _); by vm_compute] |]).
    destruct Hk.
  - by exists "abcd-1234".
  - intros k v Hk%list_elem_of_In. simpl in Hk.
    destruct Hk as [<- | [<- | [<- | [<- | [<- | []]]]]]; intros [= <-].
    + right. exists 2023, 3, 12, 7, 0, 0, "000".
      split; [reflexivity |]. unfold civil, fraction.
      repeat split; first [lia | by vm_compute | vm_compute; lia].
    + right. exists 2020, 11, 1, 6, 59, 59, "000".
      split; [reflexivity |]. unfold civil, fraction.
      repeat split; first [lia | by vm_compute | vm_compute; lia].
    + right. exists 2023, 3, 12, 8, 0, 0, "000".
      split; [reflexivity |]. unfold civil, fraction.
      repeat split; first [lia | by vm_compute | vm_compute; lia].
    + by left.
    + right. exists 2020, 11, 1, 7, 0, 0, "000".
      split; [reflexivity |]. unfold civil, fraction.
      repeat split; first [lia | by vm_compute | vm_compute; lia].
  - by eexists.
Qed.

Lemma transform_total_and_repeatable_witness :
  ∃ data' output_data,
    transform US_Central [scenario_asset] = Some (data', output_data)
    ∧ length output_data = length [scenario_asset]
    ∧ data' = (fun row => set_resource (with_page_views row) row)
                <$> [scenario_asset]
    ∧ transform US_Central data' = Some (data', output_data).
Proof.
  apply (transform_total_and_repeatable US_Central US_Central_wf [scenario_asset]).
  constructor; [apply scenario_asset_wf | constructor].
Defined.

(** C8, as the design states it, fails: [transform] modifies its input. *)
Lemma transform_modifies_its_input :
  ¬ (∀ (tz : tzinfo) (data data' : list asset) (output_data : list dict),
       transform tz data = Some (data', output_data) → data' = data).
Proof.
  intros H.
  specialize (H US_Central [scenario_asset] [scenario_row] [scenario_record]).
  assert ([scenario_row] = [scenario_asset]) as Hrow
    by (apply H; vm_compute; reflexivity).
  apply (f_equal (fun data : list asset =>
                    match data with
                    | [row] => resource row !! "page_views_total"
                    | _ => None
                    end)) in Hrow.
  vm_compute in Hrow. discriminate Hrow.
Qed.

(** ** Row counts *)

Section RowCounts.

Variable session : endpoint.

Lemma fetch_inv (id : scalar) (result : count_result) :
  fetch session id = Some result →
  result_id result = id ∧ answers session id (result_row_count result).
Proof.
  unfold fetch, answers. intros H. do 3 bind_inv H. injection H as <-.
  simpl. split; [done |]. eexists _, _. by repeat split.
Qed.

Lemma make_tasks_app (pre post : list dict) (tasks : list scalar) :
  make_tasks (pre ++ post) = Some tasks →
  ∃ t1 t2, make_tasks pre = Some t1 ∧ make_tasks post = Some t2
           ∧ tasks = t1 ++ t2.
Proof.
  revert tasks. induction pre as [|row pre IH]; intros tasks H; simpl in *.
  - by exists [], tasks.
  - bind_inv H. destruct (Py.eq s (SStr "dataset")) eqn:Hty.
    + do 2 bind_inv H. injection H as <-.
      destruct (IH _ eq_refl) as (t1 & t2 & Ht1 & -> & ->).
      exists (s0 :: t1), t2. simpl. rewrite ?Hty, Ht1. done.
    + destruct (IH _ H) as (t1 & t2 & Ht1 & -> & ->).
      exists t1, t2. simpl. rewrite ?Hty. done.
Qed.

(** Every task is the identifier of a dataset of [data]. *)
Lemma make_tasks_from (data : list dict) (tasks : list scalar) (t : scalar) :
  make_tasks data = Some tasks → t ∈ tasks →
  ∃ (j : nat) row, data !! j = Some row ∧ is_dataset row ∧ row !! "id" = Some t.
Proof.
  revert tasks. induction data as [|row data IH]; intros tasks H Ht; simpl in H.
  - injection H as <-. by apply elem_of_nil in Ht.
  - bind_inv H. destruct (Py.eq s (SStr "dataset")) eqn:Hty.
    + do 2 bind_inv H. injection H as <-.
      apply py_eq_str in Hty as ->.
      apply elem_of_cons in Ht as [-> | Ht].
      * by exists 0%nat, row.
      * destruct (IH _ eq_refl Ht) as (j & row' & ? & ? & ?).
        by exists (S j), row'.
    + destruct (IH _ H Ht) as (j & row' & ? & ? & ?). by exists (S j), row'.
Qed.

Lemma make_tasks_cons (row : dict) (post : list dict) (tasks : list scalar) :
  make_tasks (row :: post) = Some tasks →
  ∃ ty t2, row !! "type" = Some ty ∧ make_tasks post = Some t2
           ∧ ((ty = SStr "dataset"
               ∧ ∃ id, row !! "id" = Some id ∧ tasks = id :: t2)
              ∨ (ty ≠ SStr "dataset" ∧ tasks = t2)).
Proof.
  simpl. intros H. bind_inv H. destruct (Py.eq s (SStr "dataset")) eqn:Hty.
  - do 2 bind_inv H. injection H as <-. apply py_eq_str in Hty as ->.
    exists (SStr "dataset"), l. split; [done |]. split; [done |]. left. eauto.
  - exists s, tasks. split; [done |]. split; [done |]. right. split; [|done].
    intros ->. by rewrite (proj2 (py_eq_str _ _) eq_refl) in Hty.
Qed.

Lemma merge_result_rows (result : count_result) (data out : list dict) :
  merge_result result data = Some out →
  Forall2 (fun row row' => apply_results [result] row = Some row') data out.
Proof.
  unfold merge_result. intros H%mapM_Some_1.
  eapply Forall2_impl; [done |]. simpl. intros row row' Hrow.
  by bind_inv Hrow.
Qed.

Lemma apply_results_app (rs1 rs2 : list count_result) (row : dict) :
  apply_results (rs1 ++ rs2) row
  = apply_results rs1 row ≫= apply_results rs2.
Proof.
  revert row. induction rs1 as [|r rs1 IH]; intros row; simpl; [done |].
  destruct (row !! "id"); simpl; [apply IH | done].
Qed.

(** The merge loops treat each row on its own. *)
Lemma merge_results_rows (results : list count_result) (data out : list dict) :
  merge_results results data = Some out →
  Forall2 (fun row row' => apply_results results row = Some row') data out.
Proof.
  revert data. induction results as [|r results IH]; intros data H; simpl in H.
  - injection H as <-. by apply Forall_Forall2_diag, Forall_true.
  - bind_inv H. apply merge_result_rows in E. apply IH in H.
    clear IH. revert out H. induction E as [|row mid data l Hrow _ IHE];
      intros out H.
    + by inversion H.
    + inversion H as [|? row' ? out' Hrow' Hrest]; subst.
      constructor; [|by apply IHE].
      change (r :: results) with ([r] ++ results).
      rewrite apply_results_app, Hrow. done.
Qed.

(** Results for other identifiers leave a row as it is. *)
Lemma apply_results_others (results : list count_result) (row : dict) (id : scalar) :
  row !! "id" = Some id →
  Forall (fun r => Py.eq id (result_id r) = false) results →
  apply_results results row = Some row.
Proof.
  intros Hid. induction 1 as [|r results Hr _ IH]; simpl; [done |].
  rewrite Hid. simpl. by rewrite Hr.
Qed.

Lemma apply_results_keeps (results : list count_result) (row row' : dict) :
  apply_results results row = Some row' →
  delete "row_count" row' = delete "row_count" row.
Proof.
  revert row. induction results as [|r results IH]; intros row H; simpl in H.
  - by injection H as <-.
  - bind_inv H. apply IH in H. rewrite H.
    destruct (Py.eq s (result_id r)); [|done].
    by rewrite delete_insert_eq.
Qed.

(** The results of [gather] are those of the tasks, one for one. *)
Lemma gather_ids (tasks : list scalar) (results : list count_result) :
  gather session tasks = Some results →
  Forall2 (fun t r => result_id r = t ∧ answers session t (result_row_count r))
          tasks results.
Proof.
  unfold gather. intros H%mapM_Some_1.
  eapply Forall2_impl; [done |]. intros t r. apply fetch_inv.
Qed.

Lemma gather_others (tasks : list scalar) (results : list count_result)
      (id : scalar) :
  gather session tasks = Some results →
  Forall (fun t => Py.eq id t = false) tasks →
  Forall (fun r => Py.eq id (result_id r) = false) results.
Proof.
  intros H%gather_ids Hne. induction H as [|t r tasks results [<- _] _ IH].
  - constructor.
  - inversion Hne; subst. constructor; auto.
Qed.

Lemma py_eq_refl (v : scalar) : Py.eq v v = true.
Proof.
  destruct v as [|[]|n|s]; simpl; try done.
  - apply Z.eqb_refl.
  - apply String.eqb_refl.
Qed.

(** What [get_row_counts] returns for each record, when identifiers are
    unique: a dataset with the count that the endpoint answers for its
    identifier, any other record as it was. *)
Lemma get_row_counts_rows (data out : list dict) :
  get_row_counts session data = Some out →
  unique_ids data →
  length out = length data
  ∧ ∀ (i : nat) row, data !! i = Some row →
      (is_dataset row →
       ∃ id count, row !! "id" = Some id ∧ answers session id count
                   ∧ out !! i = Some (<["row_count" := count]> row))
      ∧ (¬ is_dataset row → out !! i = Some row).
Proof.
  unfold get_row_counts. intros H Huniq. do 2 bind_inv H.
  rename l into tasks, l0 into results, E into Htasks, E0 into Hgather.
  apply merge_results_rows in H.
  split; [symmetry; by eapply Forall2_length |].
  intros i row Hi.
  destruct (Forall2_lookup_l _ _ _ _ _ H Hi) as (row' & Hi' & Hrow').
  rewrite Hi'.
  pose proof (take_drop_middle data i row Hi) as Hsplit.
  rewrite <- Hsplit in Htasks.
  apply make_tasks_app in Htasks as (t1 & t23 & Ht1 & Ht23 & ->).
  apply make_tasks_cons in Ht23 as (ty & t2 & Hty & Ht2 & Hcase).
  assert (∀ id, row !! "id" = Some id →
                Forall (fun t => Py.eq id t = false) t1
                ∧ Forall (fun t => Py.eq id t = false) t2) as Hothers.
  { intros id Hid. split; apply Forall_forall; intros t Ht.
    - destruct (make_tasks_from _ _ _ Ht1 Ht) as (j & rowj & Hj & _ & Hidj).
      apply lookup_take_Some in Hj as [Hj Hlt].
      destruct (Py.eq id t) eqn:Heq; [|done].
      pose proof (Huniq i j row rowj id t Hi Hj Hid Hidj Heq). lia.
    - destruct (make_tasks_from _ _ _ Ht2 Ht) as (j & rowj & Hj & _ & Hidj).
      rewrite lookup_drop in Hj.
      destruct (Py.eq id t) eqn:Heq; [|done].
      pose proof (Huniq i (S i + j)%nat row rowj id t Hi Hj Hid Hidj Heq). lia. }
  destruct Hcase as [[-> (id & Hid & ->)] | [Hnd ->]].
  - split; [|intros Hn; by destruct Hn].
    intros _. destruct (Hothers id Hid) as [Ho1 Ho2].
    unfold gather in Hgather.
    apply mapM_Some_1, Forall2_app_inv_l in Hgather
      as (r1 & r23 & Hr1 & Hr23 & ->).
    inversion Hr23 as [|? r ? r2 Hr Hr2]; subst.
    apply mapM_Some_2 in Hr1, Hr2.
    apply fetch_inv in Hr as [Hrid Hans].
    exists id, (result_row_count r). split; [done |]. split; [done |].
    change (r1 ++ r :: r2) with (r1 ++ [r] ++ r2) in Hrow'.
    rewrite !apply_results_app in Hrow'.
    rewrite (apply_results_others r1 row id Hid) in Hrow'
      by (by eapply gather_others).
    simpl in Hrow'. rewrite Hid in Hrow'. simpl in Hrow'.
    rewrite Hrid, py_eq_refl in Hrow'.
    rewrite (apply_results_others r2 _ id) in Hrow';
      [congruence | by rewrite lookup_insert_ne | by eapply gather_others].
  - split; [intros Hd; unfold is_dataset in Hd; congruence |].
    intros _.
    destruct results as [|r0 results0] eqn:Hres.
    { simpl in Hrow'. congruence. }
    rewrite <- Hres in *.
    assert (is_Some (row !! "id")) as [id Hid].
    { rewrite Hres in Hrow'. simpl in Hrow'.
      destruct (row !! "id"); [by eexists | done]. }
    destruct (Hothers id Hid) as [Ho1 Ho2].
    rewrite (apply_results_others results row id Hid) in Hrow'; [congruence |].
    eapply gather_others; [done |]. by apply Forall_app.
Qed.

End RowCounts.

(** C6, as the code has it. After a run of [get_row_counts] that
    returns, on records with unique identifiers, each dataset carries
    under [row_count] the count that the endpoint answered for the
    identifier of that record, as the endpoint gave it; a record of
    another type is returned as it was, so it gains no [row_count]. *)
Theorem datasets_carry_the_answered_count
    (session : endpoint) (data out : list dict) :
  get_row_counts session data = Some out →
  unique_ids data →
  ∀ (i : nat) row, data !! i = Some row →
    (is_dataset row →
     ∃ row' id count,
       out !! i = Some row'
       ∧ row !! "id" = Some id
       ∧ answers session id count
       ∧ row' !! "row_count" = Some count)
    ∧ (¬ is_dataset row →
       ∃ row', out !! i = Some row'
               ∧ row' !! "row_count" = row !! "row_count").
Proof.
  intros Hrun Huniq i row Hi.
  destruct (get_row_counts_rows session data out Hrun Huniq) as [_ Hrows].
  destruct (Hrows i row Hi) as [Hds Hother]. split.
  - intros Hd. destruct (Hds Hd) as (id & count & Hid & Hans & Hout).
    exists (<["row_count" := count]> row), id, count.
    by rewrite lookup_insert_eq.
  - intros Hd. exists row. by rewrite (Hother Hd).
Qed.

(** C9. [get_row_counts] returns as many records as it was given, in
    the same order, and each with the fields it had, [row_count] apart.
    With unique identifiers the records differ from the input only by the
    [row_count] added to the datasets. *)
Theorem enrichment_changes_only_row_count
    (session : endpoint) (data out : list dict) :
  get_row_counts session data = Some out →
  length out = length data
  ∧ (∀ (i : nat) row row', data !! i = Some row → out !! i = Some row' →
       ∀ key, key ≠ "row_count" → row' !! key = row !! key)
  ∧ (unique_ids data →
     ∀ (i : nat) row row', data !! i = Some row → out !! i = Some row' →
       (is_dataset row →
        ∃ count, row' = <["row_count" := count]> row)
       ∧ (¬ is_dataset row → row' = row)).
Proof.
  intros Hrun.
  assert (Forall2 (fun row row' =>
                     delete "row_count" row' = delete "row_count" row)
                  data out) as Hframe.
  { unfold get_row_counts in Hrun. do 2 bind_inv Hrun.
    apply merge_results_rows in Hrun.
    eapply Forall2_impl; [done |]. intros row row'. apply apply_results_keeps. }
  split; [symmetry; by eapply Forall2_length |]. split.
  - intros i row row' Hi Hi' key Hkey.
    pose proof (Forall2_lookup_lr _ _ _ _ _ _ Hframe Hi Hi') as Hdel.
    apply (f_equal (fun d : dict => d !! key)) in Hdel.
    by rewrite !lookup_delete_ne in Hdel.
  - intros Huniq i row row' Hi Hi'.
    destruct (get_row_counts_rows session data out Hrun Huniq) as [_ Hrows].
    destruct (Hrows i row Hi) as [Hds Hother]. split.
    + intros Hd. destruct (Hds Hd) as (id & count & _ & _ & Hout).
      exists count. congruence.
    + intros Hd. rewrite (Hother Hd) in Hi'. congruence.
Qed.

(** C7, as the code has it. When the count query of one dataset fails,
    [get_row_counts] raises: no record gets a count, and [main] ends
    before it publishes. *)
Theorem one_failed_count_aborts_the_run
    (session : endpoint) (data : list dict) (row : dict) (id : scalar) :
  row ∈ data → is_dataset row → row !! "id" = Some id →
  fetch session id = None →
  get_row_counts session data = None
  ∧ ∀ (tz : tzinfo) (odp_results edp_results assets rows : list asset),
      extract odp_results edp_results = Some assets →
      transform tz assets = Some (rows, data) →
      main tz odp_results edp_results session = None.
Proof.
  intros Hin Hd Hid Hfail.
  assert (get_row_counts session data = None) as Hnone.
  { unfold get_row_counts.
    destruct (make_tasks data) as [tasks|] eqn:Htasks; [|done]. simpl.
    assert (id ∈ tasks) as Hid_in.
    { clear Hfail. revert tasks Htasks.
      induction Hin as [row data | row row0 data Hin IH]; intros tasks Htasks;
        simpl in Htasks.
      - unfold is_dataset in Hd. rewrite Hd in Htasks. simpl in Htasks.
        rewrite Hid in Htasks. simpl in Htasks. bind_inv Htasks.
        injection Htasks as <-. by left.
      - bind_inv Htasks. destruct (Py.eq s (SStr "dataset")).
        + do 2 bind_inv Htasks. injection Htasks as <-.
          right. by apply IH.
        + by apply IH. }
    assert (gather session tasks = None) as ->; [|done].
    apply mapM_None_2, Exists_exists. by exists id. }
  split; [done |].
  intros tz odp edp assets rows Hex Htr. unfold main.
  rewrite Hex. simpl. rewrite Htr. simpl. by rewrite Hnone.
Qed.

Lemma enrichment_data_unique : unique_ids enrichment_data.
Proof.
  intros i j row_i row_j id_i id_j Hi Hj Hidi Hidj Heq.
  destruct i as [|[|[|i]]]; [| | |done];
    destruct j as [|[|[|j]]]; try done;
    simpl in Hi, Hj; injection Hi as <-; injection Hj as <-;
    vm_compute in Hidi, Hidj; injection Hidi as <-; injection Hidj as <-;
    by vm_compute in Heq.
Qed.

Example get_row_counts_example :
  get_row_counts session_ok enrichment_data
  = Some [ <["row_count" := SStr "42"]> record_a; record_m;
           <["row_count" := SStr "7"]> record_b ].
Proof. vm_compute. reflexivity. Qed.

Lemma datasets_carry_the_answered_count_witness :
  (is_dataset record_a →
   ∃ row' id count,
     [ <["row_count" := SStr "42"]> record_a; record_m;
       <["row_count" := SStr "7"]> record_b ] !! 0%nat = Some row'
     ∧ record_a !! "id" = Some id
     ∧ answers session_ok id count
     ∧ row' !! "row_count" = Some count)
  ∧ (¬ is_dataset record_a →
     ∃ row',
       [ <["row_count" := SStr "42"]> record_a; record_m;
         <["row_count" := SStr "7"]> record_b ] !! 0%nat = Some row'
       ∧ row' !! "row_count" = record_a !! "row_count").
Proof.
  apply (datasets_carry_the_answered_count session_ok enrichment_data
           [ <["row_count" := SStr "42"]> record_a; record_m;
             <["row_count" := SStr "7"]> record_b ]).
  - vm_compute. reflexivity.
  - apply enrichment_data_unique.
  - reflexivity.
Defined.

Lemma enrichment_changes_only_row_count_witness :
  length [ <["row_count" := SStr "42"]> record_a; record_m;
           <["row_count" := SStr "7"]> record_b ]
  = length enrichment_data.
Proof.
  apply (enrichment_changes_only_row_count session_ok enrichment_data
           [ <["row_count" := SStr "42"]> record_a; record_m;
             <["row_count" := SStr "7"]> record_b ]).
  vm_compute. reflexivity.
Defined.

Lemma one_failed_count_aborts_the_run_witness :
  get_row_counts session_a_fails enrichment_data = None.
Proof.
  apply (one_failed_count_aborts_the_run session_a_fails enrichment_data
           record_a (SStr "aaaa-0001")).
  - apply list_elem_of_here.
  - reflexivity.
  - reflexivity.
  - vm_compute. reflexivity.
Defined.

(** C6, as the design states it, fails: the count is published as the
    endpoint gave it, and the endpoint gives a string. *)
Lemma row_count_is_not_always_a_number :
  ¬ (∀ (session : endpoint) (data out : list dict) (row' : dict),
       get_row_counts session data = Some out →
       row' ∈ out → is_dataset row' →
       ∃ n, row' !! "row_count" = Some (SInt n)).
Proof.
  intros H.
  destruct (H session_ok enrichment_data
              [ <["row_count" := SStr "42"]> record_a; record_m;
                <["row_count" := SStr "7"]> record_b ]
              (<["row_count" := SStr "42"]> record_a)) as [n Hn].
  - vm_compute. reflexivity.
  - apply list_elem_of_here.
  - vm_compute. reflexivity.
  - vm_compute in Hn. discriminate Hn.
Qed.

(** C7, as the design states it, fails: one failed query leaves the
    other datasets without counts. *)
Lemma one_failed_count_stops_the_others :
  ¬ (∀ (session : endpoint) (data : list dict) (row : dict) (id : scalar),
       row ∈ data → is_dataset row → row !! "id" = Some id →
       fetch session id = None →
       is_Some (get_row_counts session data)).
Proof.
  intros H.
  destruct (H session_a_fails enrichment_data record_a (SStr "aaaa-0001"))
    as [out Hout].
  - apply list_elem_of_here.
  - reflexivity.
  - reflexivity.
  - vm_compute. reflexivity.
  - vm_compute in Hout. discriminate Hout.
Qed.
